(** * bit7z: [BitArchiveCreator] (src/bitarchivecreator.cpp)

    A shallow embedding of the archive-creation settings object, of its
    validating setters, of the property list handed to the 7-zip engine and
    of the output-stream selection, together with the properties stated in
    the specification of the component. *)

From Stdlib Require Import ZArith List String Ascii Bool Lia DecimalString DecimalN.
Import ListNotations.

Local Open Scope string_scope.
Local Open Scope Z_scope.

(** ** Data model *)

(** [std::wstring], and the narrow literals passed to [BitException]. *)
Definition wstring := string.

(** [uint32_t], [uint64_t], [HRESULT] and [DWORD] are carried by [Z]; the
    code below performs no arithmetic on run-time values of these types, only
    comparisons against constants. *)
Definition uint32_t := Z.
Definition uint64_t := Z.
Definition HRESULT := Z.
Definition DWORD := Z.

(** Conversion of an [int] constant to [uint32_t], as performed by the usual
    arithmetic conversions when it is compared with a [uint32_t]. *)
Definition to_uint32 (x : Z) : uint32_t := x mod 2 ^ 32.

(** Modelled from the spec: the enumeration [BitCompressionMethod] is declared
    in a header that is not part of the sources.  The seven enumerators are
    the ones the source names; [Other] stands for any further value of the
    underlying type, which is what the [default:] branches receive. *)
Module BitCompressionMethod.

Inductive t : Type :=
| Copy
| Ppmd
| Lzma
| Lzma2
| BZip2
| Deflate
| Deflate64
| Other (raw : Z).

Definition eqb (a b : t) : bool :=
  match a, b with
  | Copy, Copy | Ppmd, Ppmd | Lzma, Lzma | Lzma2, Lzma2
  | BZip2, BZip2 | Deflate, Deflate | Deflate64, Deflate64 => true
  | Other x, Other y => Z.eqb x y
  | _, _ => false
  end.

End BitCompressionMethod.

(** Modelled from the spec: the format constants of [BitFormat] live in a
    header that is not part of the sources.  A format is identified by its
    value; the seven constants are the ones the source compares against, and
    [Other] stands for every further format. *)
Module BitFormat.

Inductive id : Type :=
| SevenZip
| Zip
| Tar
| Wim
| Xz
| BZip2
| GZip
| Other (value : Z).

Definition eqb (a b : id) : bool :=
  match a, b with
  | SevenZip, SevenZip | Zip, Zip | Tar, Tar | Wim, Wim
  | Xz, Xz | BZip2, BZip2 | GZip, GZip => true
  | Other x, Other y => Z.eqb x y
  | _, _ => false
  end.

End BitFormat.

(** Modelled from the spec: the capability flags of a format
    ([FormatFeatures]); the five flags are the ones the source tests. *)
Inductive FormatFeatures : Type :=
| MULTIPLE_FILES
| SOLID_ARCHIVE
| COMPRESSION_LEVEL
| HEADER_ENCRYPTION
| MULTIPLE_METHODS.

Definition FormatFeatures_eqb (a b : FormatFeatures) : bool :=
  match a, b with
  | MULTIPLE_FILES, MULTIPLE_FILES
  | SOLID_ARCHIVE, SOLID_ARCHIVE
  | COMPRESSION_LEVEL, COMPRESSION_LEVEL
  | HEADER_ENCRYPTION, HEADER_ENCRYPTION
  | MULTIPLE_METHODS, MULTIPLE_METHODS => true
  | _, _ => false
  end.

(** Modelled from the spec: [BitCompressionLevel], an ordinal enumeration
    declared in a header that is not part of the sources; [level_value] is
    the [static_cast< uint32_t >] of a level. *)
Inductive BitCompressionLevel : Type :=
| NONE
| FASTEST
| FAST
| NORMAL
| MAX
| ULTRA.

Definition level_value (l : BitCompressionLevel) : uint32_t :=
  match l with
  | NONE => 0
  | FASTEST => 1
  | FAST => 3
  | NORMAL => 5
  | MAX => 7
  | ULTRA => 9
  end.

(** [BitInOutFormat]: the value identifying the format, its default method
    and its capabilities.  [operator==] compares the values. *)
Record BitInOutFormat : Type := {
  value : BitFormat.id;
  defaultMethod : BitCompressionMethod.t;
  features : list FormatFeatures
}.

Definition hasFeature (format : BitInOutFormat) (f : FormatFeatures) : bool :=
  existsb (FormatFeatures_eqb f) (features format).

Definition format_is (format : BitInOutFormat) (c : BitFormat.id) : bool :=
  BitFormat.eqb (value format) c.

(** ** Validation of the settings *)

Definition isValidCompressionMethod
  (format : BitInOutFormat) (method : BitCompressionMethod.t) : bool :=
  match method with
  | BitCompressionMethod.Copy =>
      format_is format BitFormat.SevenZip || format_is format BitFormat.Zip
      || format_is format BitFormat.Tar || format_is format BitFormat.Wim
  | BitCompressionMethod.Ppmd
  | BitCompressionMethod.Lzma =>
      format_is format BitFormat.SevenZip || format_is format BitFormat.Zip
  | BitCompressionMethod.Lzma2 =>
      format_is format BitFormat.SevenZip || format_is format BitFormat.Xz
  | BitCompressionMethod.BZip2 =>
      format_is format BitFormat.SevenZip || format_is format BitFormat.BZip2
      || format_is format BitFormat.Zip
  | BitCompressionMethod.Deflate =>
      format_is format BitFormat.GZip || format_is format BitFormat.Zip
  | BitCompressionMethod.Deflate64 =>
      format_is format BitFormat.Zip
  | _ => true
  end.

Definition isValidDictionarySize
  (method : BitCompressionMethod.t) (dictionary_size : uint32_t) : bool :=
  match method with
  | BitCompressionMethod.Lzma
  | BitCompressionMethod.Lzma2 =>
      dictionary_size <=? to_uint32 (1536 * Z.shiftl 1 20)
  | BitCompressionMethod.Ppmd =>
      dictionary_size <=? to_uint32 (Z.shiftl 1 30)
  | BitCompressionMethod.BZip2 =>
      dictionary_size <=? to_uint32 (900 * Z.shiftl 1 10)
  | BitCompressionMethod.Deflate64 =>
      dictionary_size =? to_uint32 (Z.shiftl 1 16)
  | BitCompressionMethod.Deflate =>
      dictionary_size =? to_uint32 (Z.shiftl 1 15)
  | _ => true
  end.

Definition methodName (method : BitCompressionMethod.t) : wstring :=
  match method with
  | BitCompressionMethod.Copy => "Copy"
  | BitCompressionMethod.Ppmd => "PPMd"
  | BitCompressionMethod.Lzma => "LZMA"
  | BitCompressionMethod.Lzma2 => "LZMA2"
  | BitCompressionMethod.BZip2 => "BZip2"
  | BitCompressionMethod.Deflate => "Deflate"
  | BitCompressionMethod.Deflate64 => "Deflate64"
  | _ => EmptyString
  end.

(** ** Exceptions and stateful computations *)

(** The source has one exception class, [BitException], carrying a message. *)
Record BitException : Type := { what : wstring }.

Inductive Outcome (A : Type) : Type :=
| Return (a : A)
| Throw (e : BitException).

Arguments Return {A} a.
Arguments Throw {A} e.

(** A computation over a mutable state [S] that returns a value or throws.
    The state that comes out of a throwing computation is the state at the
    point of the [throw]: nothing is rolled back. *)
Definition M (S A : Type) : Type := S -> Outcome A * S.

Definition ret {S A} (a : A) : M S A := fun s => (Return a, s).

Definition throw {S A} (msg : wstring) : M S A :=
  fun s => (Throw {| what := msg |}, s).

Definition rethrow {S A} (e : BitException) : M S A := fun s => (Throw e, s).

Definition bind {S A B} (c : M S A) (k : A -> M S B) : M S B :=
  fun s =>
    match c s with
    | (Return a, s') => k a s'
    | (Throw e, s') => (Throw e, s')
    end.

Definition get {S} : M S S := fun s => (Return s, s).

Definition modify {S} (f : S -> S) : M S unit := fun s => (Return tt, f s).

Definition when {S} (b : bool) (c : M S unit) : M S unit :=
  if b then c else ret tt.

Declare Scope cpp_scope.
Delimit Scope cpp_scope with cpp.
Notation "x <- c ;; k" := (bind c (fun x => k))
  (at level 61, c at next level, right associativity) : cpp_scope.
Notation "c ;; k" := (bind c (fun _ => k))
  (at level 61, right associativity) : cpp_scope.
Local Open Scope cpp_scope.

(** ** The engine, as seen through its interfaces *)

(** [BitPropVariant], restricted to the three kinds of value the source
    builds: a boolean, a [uint32_t] and a wide string. *)
Inductive BitPropVariant : Type :=
| PropBool (b : bool)
| PropUInt32 (n : uint32_t)
| PropWString (s : wstring).

(** Result codes of the engine ([HRESULT] is a signed 32-bit integer). *)
Definition S_OK : HRESULT := 0.
Definition E_NOTIMPL : HRESULT := 0x80004001 - 2 ^ 32.
Definition E_FAIL : HRESULT := 0x80004005 - 2 ^ 32.

(** [CompressCallback]: the number of items to write and the error message
    the engine's calls into the callback have accumulated so far. *)
Record CompressCallback : Type := {
  itemsCount : uint32_t;
  getErrorMessage : wstring
}.

(** [IOutArchive]: an opaque handle of the engine.  Its answers are taken as
    given: whether it exposes [ISetProperties], the result of
    [SetProperties] on a list of names and values, and the result of
    [UpdateItems] together with the callback as the engine leaves it. *)
Record IOutArchive : Type := {
  QueryInterface_ISetProperties : bool;
  SetProperties : list wstring -> list BitPropVariant -> HRESULT;
  UpdateItems : uint32_t -> CompressCallback -> HRESULT * CompressCallback
}.

(** Modelled from the spec: [BitInputArchive], whose code is not part of the
    sources.  Opening the prior archive and asking it for an update-capable
    handle either throws or yields the handle. *)
Record BitInputArchive : Type := {
  archivePath : wstring;
  initUpdatableArchive : BitException + IOutArchive
}.

(** [Bit7zLibrary]: creation of engine handles for a format and opening of
    an existing archive. *)
Record Bit7zLibrary : Type := {
  createArchiveObject : BitFormat.id -> IOutArchive;
  openInputArchive : BitFormat.id -> wstring -> BitException + BitInputArchive
}.

(** ** The settings object *)

Record BitArchiveCreator : Type := {
  mLibrary : Bit7zLibrary;
  mPassword : wstring;
  mFormat : BitInOutFormat;
  mCompressionLevel : BitCompressionLevel;
  mCompressionMethod : BitCompressionMethod.t;
  mDictionarySize : uint32_t;
  mCryptHeaders : bool;
  mSolidMode : bool;
  mUpdateMode : bool;
  mVolumeSize : uint64_t
}.

(** The constructor; [mPassword] is default-constructed by the base class. *)
Definition new_BitArchiveCreator
  (lib : Bit7zLibrary) (format : BitInOutFormat) : BitArchiveCreator :=
  {| mLibrary := lib;
     mPassword := EmptyString;
     mFormat := format;
     mCompressionLevel := NORMAL;
     mCompressionMethod := defaultMethod format;
     mDictionarySize := 0;
     mCryptHeaders := false;
     mSolidMode := false;
     mUpdateMode := false;
     mVolumeSize := 0 |}.

(** Assignments to the members. *)
Definition set_mPassword (v : wstring) (this : BitArchiveCreator) :=
  {| mLibrary := mLibrary this; mPassword := v; mFormat := mFormat this;
     mCompressionLevel := mCompressionLevel this;
     mCompressionMethod := mCompressionMethod this;
     mDictionarySize := mDictionarySize this;
     mCryptHeaders := mCryptHeaders this; mSolidMode := mSolidMode this;
     mUpdateMode := mUpdateMode this; mVolumeSize := mVolumeSize this |}.

Definition set_mCompressionLevel (v : BitCompressionLevel) (this : BitArchiveCreator) :=
  {| mLibrary := mLibrary this; mPassword := mPassword this; mFormat := mFormat this;
     mCompressionLevel := v;
     mCompressionMethod := mCompressionMethod this;
     mDictionarySize := mDictionarySize this;
     mCryptHeaders := mCryptHeaders this; mSolidMode := mSolidMode this;
     mUpdateMode := mUpdateMode this; mVolumeSize := mVolumeSize this |}.

Definition set_mCompressionMethod (v : BitCompressionMethod.t) (this : BitArchiveCreator) :=
  {| mLibrary := mLibrary this; mPassword := mPassword this; mFormat := mFormat this;
     mCompressionLevel := mCompressionLevel this;
     mCompressionMethod := v;
     mDictionarySize := mDictionarySize this;
     mCryptHeaders := mCryptHeaders this; mSolidMode := mSolidMode this;
     mUpdateMode := mUpdateMode this; mVolumeSize := mVolumeSize this |}.

Definition set_mDictionarySize (v : uint32_t) (this : BitArchiveCreator) :=
  {| mLibrary := mLibrary this; mPassword := mPassword this; mFormat := mFormat this;
     mCompressionLevel := mCompressionLevel this;
     mCompressionMethod := mCompressionMethod this;
     mDictionarySize := v;
     mCryptHeaders := mCryptHeaders this; mSolidMode := mSolidMode this;
     mUpdateMode := mUpdateMode this; mVolumeSize := mVolumeSize this |}.

Definition set_mCryptHeaders (v : bool) (this : BitArchiveCreator) :=
  {| mLibrary := mLibrary this; mPassword := mPassword this; mFormat := mFormat this;
     mCompressionLevel := mCompressionLevel this;
     mCompressionMethod := mCompressionMethod this;
     mDictionarySize := mDictionarySize this;
     mCryptHeaders := v; mSolidMode := mSolidMode this;
     mUpdateMode := mUpdateMode this; mVolumeSize := mVolumeSize this |}.

Definition set_mSolidMode (v : bool) (this : BitArchiveCreator) :=
  {| mLibrary := mLibrary this; mPassword := mPassword this; mFormat := mFormat this;
     mCompressionLevel := mCompressionLevel this;
     mCompressionMethod := mCompressionMethod this;
     mDictionarySize := mDictionarySize this;
     mCryptHeaders := mCryptHeaders this; mSolidMode := v;
     mUpdateMode := mUpdateMode this; mVolumeSize := mVolumeSize this |}.

Definition set_mUpdateMode (v : bool) (this : BitArchiveCreator) :=
  {| mLibrary := mLibrary this; mPassword := mPassword this; mFormat := mFormat this;
     mCompressionLevel := mCompressionLevel this;
     mCompressionMethod := mCompressionMethod this;
     mDictionarySize := mDictionarySize this;
     mCryptHeaders := mCryptHeaders this; mSolidMode := mSolidMode this;
     mUpdateMode := v; mVolumeSize := mVolumeSize this |}.

Definition set_mVolumeSize (v : uint64_t) (this : BitArchiveCreator) :=
  {| mLibrary := mLibrary this; mPassword := mPassword this; mFormat := mFormat this;
     mCompressionLevel := mCompressionLevel this;
     mCompressionMethod := mCompressionMethod this;
     mDictionarySize := mDictionarySize this;
     mCryptHeaders := mCryptHeaders this; mSolidMode := mSolidMode this;
     mUpdateMode := mUpdateMode this; mVolumeSize := v |}.

(** ** The setters *)

Definition Setter : Type := M BitArchiveCreator unit.

Definition setPassword2 (password : wstring) (crypt_headers : bool) : Setter :=
  modify (set_mPassword password) ;;
  modify (set_mCryptHeaders ((0 <? Z.of_nat (String.length password)) && crypt_headers)).

Definition setPassword (password : wstring) : Setter :=
  this <- get ;;
  setPassword2 password (mCryptHeaders this).

Definition setCompressionLevel (compression_level : BitCompressionLevel) : Setter :=
  modify (set_mCompressionLevel compression_level) ;;
  modify (set_mDictionarySize 0).

Definition setCompressionMethod (compression_method : BitCompressionMethod.t) : Setter :=
  this <- get ;;
  when (negb (isValidCompressionMethod (mFormat this) compression_method))
       (throw "Invalid compression method for the chosen archive format") ;;
  when (hasFeature (mFormat this) MULTIPLE_METHODS)
       (modify (set_mCompressionMethod compression_method) ;;
        modify (set_mDictionarySize 0)).

Definition setDictionarySize (dictionary_size : uint32_t) : Setter :=
  this <- get ;;
  when (negb (isValidDictionarySize (mCompressionMethod this) dictionary_size))
       (throw "Invalid dictionary size for the chosen compression method") ;;
  when (negb (BitCompressionMethod.eqb (mCompressionMethod this) BitCompressionMethod.Copy)
        && negb (BitCompressionMethod.eqb (mCompressionMethod this) BitCompressionMethod.Deflate)
        && negb (BitCompressionMethod.eqb (mCompressionMethod this) BitCompressionMethod.Deflate64))
       (modify (set_mDictionarySize dictionary_size)).

Definition setSolidMode (solid_mode : bool) : Setter :=
  modify (set_mSolidMode solid_mode).

Definition setUpdateMode (update_mode : bool) : Setter :=
  modify (set_mUpdateMode update_mode).

Definition setVolumeSize (size : uint64_t) : Setter :=
  modify (set_mVolumeSize size).

(** A call of one of the public setters, and a session: the object as the
    constructor leaves it, followed by any number of such calls.  A caller
    that catches the exception of a rejected call goes on with the object as
    the call left it. *)
Inductive Call : Type :=
| CallSetPassword (password : wstring)
| CallSetPassword2 (password : wstring) (crypt_headers : bool)
| CallSetCompressionLevel (compression_level : BitCompressionLevel)
| CallSetCompressionMethod (compression_method : BitCompressionMethod.t)
| CallSetDictionarySize (dictionary_size : uint32_t)
| CallSetSolidMode (solid_mode : bool)
| CallSetUpdateMode (update_mode : bool)
| CallSetVolumeSize (size : uint64_t).

Definition invoke (c : Call) : Setter :=
  match c with
  | CallSetPassword p => setPassword p
  | CallSetPassword2 p h => setPassword2 p h
  | CallSetCompressionLevel l => setCompressionLevel l
  | CallSetCompressionMethod m => setCompressionMethod m
  | CallSetDictionarySize d => setDictionarySize d
  | CallSetSolidMode b => setSolidMode b
  | CallSetUpdateMode b => setUpdateMode b
  | CallSetVolumeSize v => setVolumeSize v
  end.

Definition after (c : Call) (this : BitArchiveCreator) : BitArchiveCreator :=
  snd (invoke c this).

Definition session (lib : Bit7zLibrary) (format : BitInOutFormat) (calls : list Call)
  : BitArchiveCreator :=
  fold_left (fun this c => after c this) calls (new_BitArchiveCreator lib format).

(** ** The property list handed to the engine *)

Definition empty (s : wstring) : bool :=
  match s with
  | EmptyString => true
  | String _ _ => false
  end.

(** [std::to_wstring] on an unsigned value. *)
Definition to_wstring (n : uint32_t) : wstring :=
  NilZero.string_of_uint (N.to_uint (Z.to_N n)).

(** The two parallel vectors [names] and [values]. *)
Definition PropertyVectors : Type := (list wstring * list BitPropVariant)%type.

Definition push (name : wstring) (v : BitPropVariant) (p : PropertyVectors)
  : PropertyVectors :=
  (fst p ++ [name], snd p ++ [v])%list.

Definition push_if (b : bool) (name : wstring) (v : BitPropVariant)
  (p : PropertyVectors) : PropertyVectors :=
  if b then push name v p else p.

(** The first part of [setArchiveProperties]: the vectors as they stand when
    the function reaches [if ( !names.empty() )]. *)
Definition archiveProperties (this : BitArchiveCreator) : PropertyVectors :=
  let format := mFormat this in
  let p0 : PropertyVectors := ([], []) in
  let p1 :=
    push_if (mCryptHeaders this && hasFeature format HEADER_ENCRYPTION)
            "he" (PropBool true) p0 in
  let p2 :=
    if hasFeature format COMPRESSION_LEVEL then
      let q := push "x" (PropUInt32 (level_value (mCompressionLevel this))) p1 in
      push_if (hasFeature format MULTIPLE_METHODS
               && negb (BitCompressionMethod.eqb (mCompressionMethod this)
                                                 (defaultMethod format)))
              (if format_is format BitFormat.SevenZip then "0" else "m")
              (PropWString (methodName (mCompressionMethod this))) q
    else p1 in
  let p3 :=
    push_if (hasFeature format SOLID_ARCHIVE) "s" (PropBool (mSolidMode this)) p2 in
  if negb (mDictionarySize this =? 0) then
    let is_ppmd :=
      BitCompressionMethod.eqb (mCompressionMethod this) BitCompressionMethod.Ppmd in
    let prop_name :=
      if format_is format BitFormat.SevenZip
      then (if is_ppmd then "0mem" else "0d")
      else (if is_ppmd then "mem" else "d") in
    push prop_name (PropWString (to_wstring (mDictionarySize this) ++ "b")) p3
  else p3.

(** ** The environment: file system and engine calls *)

Definition ERROR_ACCESS_DENIED : DWORD := 5.
Definition ERROR_FILE_EXISTS : DWORD := 80.

Inductive Event : Type :=
| EvCreateFile (path : wstring) (created : bool)
| EvOpenArchive (path : wstring)
| EvSetProperties (names : list wstring) (values : list BitPropVariant)
| EvUpdateItems (count : uint32_t)
| EvCloseArchive (path : wstring)
| EvCloseStream
| EvRenameFile (from to : wstring) (renamed : bool).

(** The part of the world the code acts on: the paths that exist, the paths
    at which nothing can be created (for a reason other than existence), the
    calling thread's last error code, and the calls made so far. *)
Record World : Type := {
  files : list wstring;
  blocked : list wstring;
  lastError : DWORD;
  trace : list Event
}.

Definition mem (path : wstring) (l : list wstring) : bool :=
  existsb (String.eqb path) l.

Definition log (e : Event) : M World unit :=
  modify (fun w =>
    {| files := files w; blocked := blocked w; lastError := lastError w;
       trace := (trace w ++ [e])%list |}).

(** [COutFileStream::Create( path, false )] of the 7-zip sources: creates a
    new file and fails when one exists already. *)
Definition Create (path : wstring) : M World bool :=
  w <- get ;;
  if mem path (files w) then
    modify (fun w =>
      {| files := files w; blocked := blocked w;
         lastError := ERROR_FILE_EXISTS; trace := trace w |}) ;;
    log (EvCreateFile path false) ;;
    ret false
  else if mem path (blocked w) then
    modify (fun w =>
      {| files := files w; blocked := blocked w;
         lastError := ERROR_ACCESS_DENIED; trace := trace w |}) ;;
    log (EvCreateFile path false) ;;
    ret false
  else
    modify (fun w =>
      {| files := path :: files w; blocked := blocked w;
         lastError := lastError w; trace := trace w |}) ;;
    log (EvCreateFile path true) ;;
    ret true.

Definition GetLastError : M World DWORD :=
  w <- get ;; ret (lastError w).

(** Modelled from the spec: [fsutil::renameFile], whose code is not part of
    the sources; a rename with overwrite of the destination. *)
Definition renameFile (from to : wstring) : M World bool :=
  w <- get ;;
  if mem from (files w) && negb (mem to (blocked w)) then
    modify (fun w =>
      {| files := to :: filter (fun p => negb (String.eqb p from || String.eqb p to))
                               (files w);
         blocked := blocked w; lastError := lastError w; trace := trace w |}) ;;
    log (EvRenameFile from to true) ;;
    ret true
  else
    log (EvRenameFile from to false) ;;
    ret false.

Definition call_SetProperties (out_archive : IOutArchive)
  (names : list wstring) (values : list BitPropVariant) : M World HRESULT :=
  log (EvSetProperties names values) ;;
  ret (SetProperties out_archive names values).

Definition call_UpdateItems (out_arc : IOutArchive)
  (count : uint32_t) (update_callback : CompressCallback)
  : M World (HRESULT * CompressCallback) :=
  log (EvUpdateItems count) ;;
  ret (UpdateItems out_arc count update_callback).

Definition lift {S A} (r : BitException + A) : M S A :=
  match r with
  | inl e => rethrow e
  | inr a => ret a
  end.

(** The output streams the class creates. *)
Inductive OutStream : Type :=
| COutMultiVolStream (volume_size : uint64_t) (path : wstring)
| COutFileStream (path : wstring)
| COutMemStream.

(** ** Writing the archive *)

Definition setArchiveProperties (this : BitArchiveCreator) (out_archive : IOutArchive)
  : M World unit :=
  let '(names, values) := archiveProperties this in
  when (negb (Nat.eqb (List.length names) 0))
       (when (negb (QueryInterface_ISetProperties out_archive))
             (throw "ISetProperties unsupported") ;;
        r <- call_SetProperties out_archive names values ;;
        when (negb (r =? S_OK))
             (throw "Cannot set properties of the archive")).

Definition initOutArchive (this : BitArchiveCreator) : M World IOutArchive :=
  let new_arc := createArchiveObject (mLibrary this) (value (mFormat this)) in
  setArchiveProperties this new_arc ;;
  ret new_arc.

(** [new_arc] and [old_arc] are passed by reference: their values on return
    come back with the stream. *)
Definition initOutFileStream (this : BitArchiveCreator) (out_archive : wstring)
  (new_arc : IOutArchive) (old_arc : option BitInputArchive)
  : M World (OutStream * IOutArchive * option BitInputArchive) :=
  if 0 <? mVolumeSize this then
    ret (COutMultiVolStream (mVolumeSize this) out_archive, new_arc, old_arc)
  else
    created <- Create out_archive ;;
    if negb created then
      err <- GetLastError ;;
      when (negb (err =? ERROR_FILE_EXISTS))
           (throw ("Cannot create output archive file '" ++ out_archive ++ "'")) ;;
      when (negb (mUpdateMode this))
           (throw ("Cannot update existing archive file '" ++ out_archive ++ "'")) ;;
      when (negb (hasFeature (mFormat this) MULTIPLE_FILES))
           (throw "Format does not support updating existing archive files") ;;
      created_tmp <- Create (out_archive ++ ".tmp") ;;
      when (negb created_tmp)
           (throw ("Cannot create temp archive file for updating '" ++ out_archive ++ "'")) ;;
      log (EvOpenArchive out_archive) ;;
      old <- lift (openInputArchive (mLibrary this) (value (mFormat this)) out_archive) ;;
      updatable <- lift (initUpdatableArchive old) ;;
      setArchiveProperties this updatable ;;
      ret (COutFileStream (out_archive ++ ".tmp"), updatable, Some old)
    else
      ret (COutFileStream out_archive, new_arc, old_arc).

Definition initOutMemStream : OutStream := COutMemStream.

Definition compressOut (out_arc : IOutArchive) (out_stream : OutStream)
  (update_callback : CompressCallback) : M World HRESULT :=
  rc <- call_UpdateItems out_arc (itemsCount update_callback) update_callback ;;
  let result := fst rc in
  let update_callback := snd rc in
  when (result =? E_NOTIMPL)
       (throw "Unsupported operation!") ;;
  when ((result =? E_FAIL) && empty (getErrorMessage update_callback))
       (throw "Failed operation (unkwown error)!") ;;
  when (negb (result =? S_OK))
       (throw (getErrorMessage update_callback)) ;;
  ret result.

Definition cleanupOldArc (old_arc : option BitInputArchive) (out_stream : OutStream)
  (out_archive : wstring) : M World unit :=
  match old_arc with
  | Some old =>
      log (EvCloseArchive (archivePath old)) ;;
      match out_stream with
      | COutFileStream _ => log EvCloseStream
      | _ => ret tt
      end ;;
      renamed <- renameFile (out_archive ++ ".tmp") out_archive ;;
      when (negb renamed)
           (throw ("Cannot rename temp archive file to  '" ++ out_archive ++ "'"))
  | None => ret tt
  end.

(** Modelled from the spec: the commit of an archive to a file, whose code
    (the callers of the functions above) is not part of the sources.  It
    follows section 4.4: acquire the output target, invoke the engine on it,
    interpret the result code, finalize.  [new_arc] is the engine handle
    with the property list already applied. *)
Definition commit (this : BitArchiveCreator) (out_archive : wstring)
  (new_arc : IOutArchive) (update_callback : CompressCallback) : M World HRESULT :=
  target <- initOutFileStream this out_archive new_arc None ;;
  let '(out_stream, new_arc, old_arc) := target in
  result <- compressOut new_arc out_stream update_callback ;;
  cleanupOldArc old_arc out_stream out_archive ;;
  ret result.

(** ** The tables of the specification *)

(** The method-validity table of the specification, row by row: a method and
    the formats it is valid for.  A method without a row is always valid. *)
Definition method_validity_table
  : list (BitCompressionMethod.t * list BitFormat.id) :=
  [ (BitCompressionMethod.Copy,
       [BitFormat.SevenZip; BitFormat.Zip; BitFormat.Tar; BitFormat.Wim]);
    (BitCompressionMethod.Ppmd, [BitFormat.SevenZip; BitFormat.Zip]);
    (BitCompressionMethod.Lzma, [BitFormat.SevenZip; BitFormat.Zip]);
    (BitCompressionMethod.Lzma2, [BitFormat.SevenZip; BitFormat.Xz]);
    (BitCompressionMethod.BZip2,
       [BitFormat.SevenZip; BitFormat.BZip2; BitFormat.Zip]);
    (BitCompressionMethod.Deflate, [BitFormat.GZip; BitFormat.Zip]);
    (BitCompressionMethod.Deflate64, [BitFormat.Zip]) ].

Fixpoint table_row {A} (method : BitCompressionMethod.t)
  (table : list (BitCompressionMethod.t * A)) : option A :=
  match table with
  | [] => None
  | (m, row) :: rest =>
      if BitCompressionMethod.eqb method m then Some row else table_row method rest
  end.

Definition isMethodCompatible
  (format : BitFormat.id) (method : BitCompressionMethod.t) : bool :=
  match table_row method method_validity_table with
  | Some formats => existsb (BitFormat.eqb format) formats
  | None => true
  end.

(** The dictionary-size bounds table of the specification, in bytes. *)
Inductive SizeBound : Type :=
| AtMost (bytes : Z)
| Exactly (bytes : Z).

Definition dictionary_size_table : list (BitCompressionMethod.t * SizeBound) :=
  [ (BitCompressionMethod.Lzma, AtMost 1610612736);
    (BitCompressionMethod.Lzma2, AtMost 1610612736);
    (BitCompressionMethod.Ppmd, AtMost 1073741824);
    (BitCompressionMethod.BZip2, AtMost 921600);
    (BitCompressionMethod.Deflate64, Exactly 65536);
    (BitCompressionMethod.Deflate, Exactly 32768) ].

Definition isDictionarySizeValid
  (method : BitCompressionMethod.t) (size : Z) : bool :=
  match table_row method dictionary_size_table with
  | Some (AtMost bytes) => size <=? bytes
  | Some (Exactly bytes) => size =? bytes
  | None => true
  end.

(** The number of times the engine's compress/update operation was invoked
    in a trace. *)
Definition engine_invocations (t : list Event) : nat :=
  List.length (filter (fun e => match e with EvUpdateItems _ => true | _ => false end) t).

(** ** Sample engines, formats and worlds *)

Definition sample_archive : IOutArchive :=
  {| QueryInterface_ISetProperties := true;
     SetProperties := fun _ _ => S_OK;
     UpdateItems := fun _ cb => (S_OK, cb) |}.

(** An engine that fails every update and reports why through the callback. *)
Definition failing_archive : IOutArchive :=
  {| QueryInterface_ISetProperties := true;
     SetProperties := fun _ _ => S_OK;
     UpdateItems := fun _ cb =>
       (E_FAIL, {| itemsCount := itemsCount cb; getErrorMessage := "disk full" |}) |}.

Definition sample_library : Bit7zLibrary :=
  {| createArchiveObject := fun _ => sample_archive;
     openInputArchive := fun _ path =>
       inr {| archivePath := path; initUpdatableArchive := inr sample_archive |} |}.

Definition sevenzip_like : BitInOutFormat :=
  {| value := BitFormat.SevenZip;
     defaultMethod := BitCompressionMethod.Lzma;
     features := [MULTIPLE_FILES; SOLID_ARCHIVE; COMPRESSION_LEVEL;
                  HEADER_ENCRYPTION; MULTIPLE_METHODS] |}.

Definition zip_like : BitInOutFormat :=
  {| value := BitFormat.Zip;
     defaultMethod := BitCompressionMethod.Deflate;
     features := [MULTIPLE_FILES; COMPRESSION_LEVEL; MULTIPLE_METHODS] |}.

Definition gzip_like : BitInOutFormat :=
  {| value := BitFormat.GZip;
     defaultMethod := BitCompressionMethod.Deflate;
     features := [COMPRESSION_LEVEL] |}.

Definition sample_callback : CompressCallback :=
  {| itemsCount := 2; getErrorMessage := EmptyString |}.

Definition sample_world : World :=
  {| files := ["out.zip"]; blocked := []; lastError := 0; trace := [] |}.

(** ** Consistency of the stored dictionary size *)

(** The stored dictionary size is 0 or a size that [setDictionarySize]
    accepts and stores for the stored method; every call preserves this. *)
Definition dictionary_size_consistent (this : BitArchiveCreator) : bool :=
  (mDictionarySize this =? 0)
  || (isValidDictionarySize (mCompressionMethod this) (mDictionarySize this)
      && (negb (BitCompressionMethod.eqb (mCompressionMethod this) BitCompressionMethod.Copy)
          && negb (BitCompressionMethod.eqb (mCompressionMethod this) BitCompressionMethod.Deflate)
          && negb (BitCompressionMethod.eqb (mCompressionMethod this) BitCompressionMethod.Deflate64))).

(** Further samples: a format without any capability, engines that do not
    accept properties, and worlds without the output file, with a path at
    which nothing can be created, and with a stale temporary file. *)
Definition plain_format : BitInOutFormat :=
  {| value := BitFormat.Other 0;
     defaultMethod := BitCompressionMethod.Copy;
     features := [] |}.

Definition bare_archive : IOutArchive :=
  {| QueryInterface_ISetProperties := false;
     SetProperties := fun _ _ => S_OK;
     UpdateItems := fun _ cb => (S_OK, cb) |}.

Definition refusing_archive : IOutArchive :=
  {| QueryInterface_ISetProperties := true;
     SetProperties := fun _ _ => E_FAIL;
     UpdateItems := fun _ cb => (S_OK, cb) |}.

Definition empty_world : World :=
  {| files := []; blocked := []; lastError := 0; trace := [] |}.

Definition locked_world : World :=
  {| files := []; blocked := ["out.zip"]; lastError := 0; trace := [] |}.

Definition stale_temp_world : World :=
  {| files := ["out.zip"; "out.zip.tmp"]; blocked := []; lastError := 0; trace := [] |}.

(** ** The comparisons decide equality *)

Lemma BitCompressionMethod_eqb_spec :
  forall a b : BitCompressionMethod.t,
    reflect (a = b) (BitCompressionMethod.eqb a b).
Proof.
  intros a b; destruct a as [| | | | | | | x], b as [| | | | | | | y]; simpl;
    try (constructor; congruence).
  destruct (Z.eqb_spec x y); constructor; congruence.
Qed.

Lemma BitFormat_eqb_spec :
  forall a b : BitFormat.id, reflect (a = b) (BitFormat.eqb a b).
Proof.
  intros a b; destruct a as [| | | | | | | x], b as [| | | | | | | y]; simpl;
    try (constructor; congruence).
  destruct (Z.eqb_spec x y); constructor; congruence.
Qed.

(** ** Properties of the validators *)

Ltac run_setter :=
  unfold setPassword, setPassword2, setCompressionLevel, setCompressionMethod,
    setDictionarySize, setSolidMode, setUpdateMode, setVolumeSize,
    bind, get, modify, when, throw, ret; simpl.

(** C1: for every format and method, [isValidCompressionMethod] answers as
    the method-validity table of the specification does: a method with a row
    is valid exactly for the formats of its row (Copy: 7z, Zip, Tar, Wim;
    PPMd and LZMA: 7z, Zip; LZMA2: 7z, Xz; BZip2: 7z, BZip2, Zip; Deflate:
    GZip, Zip; Deflate64: Zip), and a method without a row is valid for
    every format. *)
Theorem isValidCompressionMethod_matches_table :
  forall (format : BitInOutFormat) (method : BitCompressionMethod.t),
    isValidCompressionMethod format method
    = isMethodCompatible (value format) method
    /\ (table_row method method_validity_table = None ->
        isValidCompressionMethod format method = true).
Proof.
  intros [v d fs] method; split.
  - destruct method; unfold isMethodCompatible, format_is; simpl;
      rewrite ?orb_false_r, ?orb_assoc; reflexivity.
  - destruct method; simpl; intros H; try discriminate H; reflexivity.
Qed.

Lemma isValidCompressionMethod_matches_table_witness :
  isValidCompressionMethod zip_like (BitCompressionMethod.Other 7) = true.
Proof.
  apply (isValidCompressionMethod_matches_table zip_like (BitCompressionMethod.Other 7)).
  reflexivity.
Defined.

(** C2: for every method and size, [isValidDictionarySize] answers as the
    dictionary-size bounds table does: LZMA and LZMA2 accept a size up to
    1,610,612,736 bytes, PPMd up to 1,073,741,824, BZip2 up to 921,600,
    Deflate64 exactly 65,536, Deflate exactly 32,768, and every other method
    accepts every size; in particular LZMA2 rejects 1,610,612,737. *)
Theorem isValidDictionarySize_matches_bounds :
  forall (method : BitCompressionMethod.t) (size : uint32_t),
    isValidDictionarySize method size = isDictionarySizeValid method size
    /\ isValidDictionarySize BitCompressionMethod.Lzma2 1610612737 = false.
Proof.
  intros method size; split.
  - destruct method; reflexivity.
  - reflexivity.
Qed.

(** ** Properties of the setters *)

(** C3, as the code has it: [setDictionarySize( 0 )] throws nothing for
    every current method but Deflate and Deflate64; for Deflate and
    Deflate64 the exact-size check applies to 0 as to any other value, and
    the call throws. *)
Theorem setDictionarySize_default_accepted_unless_fixed :
  forall this : BitArchiveCreator,
    fst (setDictionarySize 0 this)
    = if BitCompressionMethod.eqb (mCompressionMethod this) BitCompressionMethod.Deflate
         || BitCompressionMethod.eqb (mCompressionMethod this) BitCompressionMethod.Deflate64
      then Throw {| what := "Invalid dictionary size for the chosen compression method" |}
      else Return tt.
Proof.
  intros this. run_setter.
  destruct (mCompressionMethod this); reflexivity.
Qed.

(** C3, as stated, fails: on a freshly constructed object whose format has
    Deflate as its default method, [setDictionarySize( 0 )] throws. *)
Lemma setDictionarySize_default_rejected_for_Deflate :
  mCompressionMethod (session sample_library gzip_like []) = BitCompressionMethod.Deflate
  /\ fst (setDictionarySize 0 (session sample_library gzip_like []))
     = Throw {| what := "Invalid dictionary size for the chosen compression method" |}
  /\ fst (setDictionarySize 0 (session sample_library gzip_like [])) <> Return tt.
Proof.
  repeat split. discriminate.
Qed.

(** C4: when [setCompressionMethod] or [setDictionarySize] throws, the
    object is, field by field, what it was before the call. *)
Theorem rejected_setter_leaves_settings_unchanged :
  forall (this this' : BitArchiveCreator) (e : BitException)
         (compression_method : BitCompressionMethod.t) (dictionary_size : uint32_t),
    setCompressionMethod compression_method this = (Throw e, this')
    \/ setDictionarySize dictionary_size this = (Throw e, this') ->
    this' = this.
Proof.
  intros this this' e m d [H | H]; revert H; run_setter.
  - destruct (isValidCompressionMethod (mFormat this) m); simpl.
    + destruct (hasFeature (mFormat this) MULTIPLE_METHODS); simpl; discriminate.
    + intros H; inversion H; reflexivity.
  - destruct (isValidDictionarySize (mCompressionMethod this) d); simpl.
    + match goal with
      | |- context [if ?b then _ else _] => destruct b
      end; simpl; discriminate.
    + intros H; inversion H; reflexivity.
Qed.

Lemma rejected_setter_leaves_settings_unchanged_witness :
  snd (setCompressionMethod BitCompressionMethod.Lzma2
         (session sample_library zip_like [CallSetDictionarySize 4096]))
  = session sample_library zip_like [CallSetDictionarySize 4096]
  /\ snd (setDictionarySize 1610612737
            (session sample_library sevenzip_like [CallSetDictionarySize 4096]))
     = session sample_library sevenzip_like [CallSetDictionarySize 4096].
Proof.
  split.
  - apply (rejected_setter_leaves_settings_unchanged _ _
             {| what := "Invalid compression method for the chosen archive format" |}
             BitCompressionMethod.Lzma2 0).
    left; reflexivity.
  - apply (rejected_setter_leaves_settings_unchanged _ _
             {| what := "Invalid dictionary size for the chosen compression method" |}
             BitCompressionMethod.Copy 1610612737).
    right; reflexivity.
Defined.

(** The format of a settings object never changes. *)
Lemma invoke_mFormat :
  forall (c : Call) (this : BitArchiveCreator),
    mFormat (after c this) = mFormat this.
Proof.
  intros c this; unfold after; destruct c; simpl; run_setter; try reflexivity.
  - destruct (isValidCompressionMethod _ _); simpl; [| reflexivity].
    destruct (hasFeature _ _); reflexivity.
  - destruct (isValidDictionarySize _ _); simpl; [| reflexivity].
    match goal with
    | |- context [if ?b then _ else _] => destruct b
    end; reflexivity.
Qed.

(** Induction over a session: a property of the constructed object that
    every call preserves holds after any sequence of calls. *)
Lemma session_ind :
  forall (lib : Bit7zLibrary) (format : BitInOutFormat) (P : BitArchiveCreator -> Prop),
    P (new_BitArchiveCreator lib format) ->
    (forall c this, P this -> P (after c this)) ->
    forall calls, P (session lib format calls).
Proof.
  intros lib format P Hnew Hstep calls; unfold session.
  generalize (new_BitArchiveCreator lib format) Hnew.
  induction calls as [| c calls IH]; intros this Hthis; simpl.
  - exact Hthis.
  - apply IH, Hstep, Hthis.
Qed.

Lemma session_mFormat :
  forall lib format calls, mFormat (session lib format calls) = format.
Proof.
  intros lib format.
  apply (session_ind lib format (fun this => mFormat this = format)).
  - reflexivity.
  - intros c this H; rewrite invoke_mFormat; exact H.
Qed.

(** On a format without several methods the stored method stays the default
    method of the format. *)
Lemma session_single_method :
  forall lib format calls,
    hasFeature format MULTIPLE_METHODS = false ->
    mCompressionMethod (session lib format calls) = defaultMethod format.
Proof.
  intros lib format calls Hsingle.
  cut (mFormat (session lib format calls) = format
       /\ mCompressionMethod (session lib format calls) = defaultMethod format).
  { intros [_ H]; exact H. }
  apply session_ind with (P := fun this =>
    mFormat this = format /\ mCompressionMethod this = defaultMethod format).
  - split; reflexivity.
  - intros c this [Hf Hm]; split; [rewrite invoke_mFormat; exact Hf |].
    unfold after; destruct c; simpl; run_setter; try exact Hm.
    + rewrite Hf, Hsingle.
      destruct (isValidCompressionMethod _ _); simpl; exact Hm.
    + destruct (isValidDictionarySize _ _); simpl; [| exact Hm].
      match goal with
      | |- context [if ?b then _ else _] => destruct b
      end; exact Hm.
Qed.

(** C5: on an object built for a format without the multiple-methods
    capability, after any sequence of setter calls, [setCompressionMethod]
    with a method valid for the format throws nothing, changes nothing, and
    the stored method is the format's default method. *)
Theorem setCompressionMethod_single_method_noop :
  forall (lib : Bit7zLibrary) (format : BitInOutFormat) (calls : list Call)
         (compression_method : BitCompressionMethod.t),
    hasFeature format MULTIPLE_METHODS = false ->
    isValidCompressionMethod format compression_method = true ->
    let this := session lib format calls in
    setCompressionMethod compression_method this = (Return tt, this)
    /\ mCompressionMethod (snd (setCompressionMethod compression_method this))
       = defaultMethod format.
Proof.
  intros lib format calls m Hsingle Hvalid this.
  assert (E : setCompressionMethod m this = (Return tt, this)).
  { run_setter. unfold this; rewrite session_mFormat, Hvalid, Hsingle. reflexivity. }
  split; [exact E |].
  rewrite E; simpl. apply session_single_method, Hsingle.
Qed.

Lemma setCompressionMethod_single_method_noop_witness :
  setCompressionMethod BitCompressionMethod.Deflate
    (session sample_library gzip_like [CallSetCompressionLevel ULTRA])
  = (Return tt, session sample_library gzip_like [CallSetCompressionLevel ULTRA])
  /\ mCompressionMethod
       (snd (setCompressionMethod BitCompressionMethod.Deflate
               (session sample_library gzip_like [CallSetCompressionLevel ULTRA])))
     = BitCompressionMethod.Deflate.
Proof.
  apply (setCompressionMethod_single_method_noop sample_library gzip_like
           [CallSetCompressionLevel ULTRA] BitCompressionMethod.Deflate);
    reflexivity.
Defined.

(** ** Header encryption and the password *)

(** The names pushed by [setArchiveProperties] other than "he" differ from
    it, so "he" is among the names exactly when the first test succeeds. *)
Lemma archiveProperties_he :
  forall this : BitArchiveCreator,
    mem "he" (fst (archiveProperties this))
    = mCryptHeaders this && hasFeature (mFormat this) HEADER_ENCRYPTION.
Proof.
  intros this; unfold archiveProperties, push_if, push, mem.
  destruct (mCryptHeaders this && hasFeature (mFormat this) HEADER_ENCRYPTION);
    destruct (hasFeature (mFormat this) COMPRESSION_LEVEL);
    destruct (hasFeature (mFormat this) MULTIPLE_METHODS
              && negb (BitCompressionMethod.eqb (mCompressionMethod this)
                         (defaultMethod (mFormat this))));
    destruct (hasFeature (mFormat this) SOLID_ARCHIVE);
    destruct (negb (mDictionarySize this =? 0));
    destruct (format_is (mFormat this) BitFormat.SevenZip);
    destruct (BitCompressionMethod.eqb (mCompressionMethod this)
                BitCompressionMethod.Ppmd);
    reflexivity.
Qed.

Lemma empty_length :
  forall s : wstring, (0 <? Z.of_nat (String.length s)) = negb (empty s).
Proof. destruct s; reflexivity. Qed.

(** Every call preserves: header encryption is off when the password is
    empty. *)
Lemma invoke_crypt_needs_password :
  forall (c : Call) (this : BitArchiveCreator),
    mCryptHeaders this && empty (mPassword this) = false ->
    mCryptHeaders (after c this) && empty (mPassword (after c this)) = false.
Proof.
  intros c this H; unfold after; destruct c; simpl; run_setter;
    try exact H; rewrite ?empty_length.
  - destruct (empty password), (mCryptHeaders this); reflexivity.
  - destruct (empty password), crypt_headers; reflexivity.
  - destruct (isValidCompressionMethod _ _); simpl; [| exact H].
    destruct (hasFeature _ _); exact H.
  - destruct (isValidDictionarySize _ _); simpl; [| exact H].
    match goal with
    | |- context [if ?b then _ else _] => destruct b
    end; exact H.
Qed.

(** C6: after the constructor and any sequence of setter calls,
    [mCryptHeaders] and an empty password never hold together; a call of
    [setPassword] with an empty password leaves [mCryptHeaders] false
    whatever was requested; and whenever the password is empty the names the
    object hands to the engine do not contain "he", whatever the format
    supports. *)
Theorem cryptHeaders_requires_password :
  forall (lib : Bit7zLibrary) (format : BitInOutFormat) (calls : list Call),
    let this := session lib format calls in
    mCryptHeaders this && empty (mPassword this) = false
    /\ empty (mPassword this) && mem "he" (fst (archiveProperties this)) = false
    /\ (forall crypt_headers : bool,
          let this' := snd (setPassword2 EmptyString crypt_headers this) in
          mPassword this' = EmptyString
          /\ mCryptHeaders this' = false
          /\ mem "he" (fst (archiveProperties this')) = false)
    /\ (let this' := snd (setPassword EmptyString this) in
        mCryptHeaders this' = false
        /\ mem "he" (fst (archiveProperties this')) = false).
Proof.
  intros lib format calls this.
  assert (Inv : mCryptHeaders this && empty (mPassword this) = false).
  { unfold this.
    apply (session_ind lib format
             (fun this => mCryptHeaders this && empty (mPassword this) = false)).
    - reflexivity.
    - intros c s Hs; apply invoke_crypt_needs_password, Hs. }
  split; [exact Inv |].
  split.
  { rewrite archiveProperties_he.
    destruct (mCryptHeaders this), (empty (mPassword this));
      try discriminate Inv; reflexivity. }
  split.
  - intros crypt_headers this'.
    repeat split; rewrite ?archiveProperties_he; reflexivity.
  - intros this'. split; rewrite ?archiveProperties_he; reflexivity.
Qed.

(** ** The result code of the engine *)

(** C7: [compressOut] maps the result code of [UpdateItems] as follows.
    [E_NOTIMPL] throws "Unsupported operation!"; [E_FAIL] with an empty
    callback message throws the generic "Failed operation (unkwown error)!";
    any other code different from [S_OK] (including [E_FAIL] with a
    message) throws the message the callback has accumulated; [S_OK] throws
    nothing and is returned.  The source has a single exception class, so
    the kind of error is carried by the message. *)
Theorem compressOut_maps_result_code :
  forall (out_arc : IOutArchive) (out_stream : OutStream)
         (update_callback : CompressCallback) (w : World),
    let result := fst (UpdateItems out_arc (itemsCount update_callback) update_callback) in
    let message :=
      getErrorMessage (snd (UpdateItems out_arc (itemsCount update_callback) update_callback)) in
    let outcome := fst (compressOut out_arc out_stream update_callback w) in
    (result = E_NOTIMPL ->
       outcome = Throw {| what := "Unsupported operation!" |})
    /\ (result = E_FAIL -> message = EmptyString ->
          outcome = Throw {| what := "Failed operation (unkwown error)!" |})
    /\ (result <> S_OK -> result <> E_NOTIMPL ->
        ~ (result = E_FAIL /\ message = EmptyString) ->
          outcome = Throw {| what := message |})
    /\ (result = S_OK -> outcome = Return S_OK).
Proof.
  intros out_arc out_stream cb w result message outcome.
  unfold outcome, compressOut, call_UpdateItems, log, bind, modify, when, throw, ret.
  simpl. fold result. fold message.
  repeat split.
  - intros ->; reflexivity.
  - intros -> ->; reflexivity.
  - intros Hok Hni Hfail.
    destruct (Z.eqb_spec result E_NOTIMPL) as [E | _]; [contradiction |].
    destruct (Z.eqb_spec result E_FAIL) as [E | _]; simpl.
    + destruct message eqn:Em; simpl.
      * exfalso; apply Hfail; split; [exact E | reflexivity].
      * destruct (Z.eqb_spec result S_OK) as [E' | _]; [contradiction | reflexivity].
    + destruct (Z.eqb_spec result S_OK) as [E' | _]; [contradiction | reflexivity].
  - intros ->; reflexivity.
Qed.

Lemma compressOut_maps_result_code_witness :
  fst (compressOut failing_archive COutMemStream sample_callback sample_world)
  = Throw {| what := "disk full" |}.
Proof.
  apply (compressOut_maps_result_code failing_archive COutMemStream
           sample_callback sample_world).
  - discriminate.
  - discriminate.
  - intros [_ H]; discriminate H.
Defined.

(** ** Committing over an existing file *)

(** C8: with [mVolumeSize] 0 and update mode off, a commit to a path that
    exists already throws "Cannot update existing archive file '<path>'"
    (the condition the specification calls a state error); the only thing
    that happened is the failed attempt to create the file, so the engine's
    compress/update operation has not been invoked and the files are as
    before. *)
Theorem commit_existing_without_update_mode :
  forall (this : BitArchiveCreator) (out_archive : wstring) (new_arc : IOutArchive)
         (update_callback : CompressCallback) (w : World),
    mVolumeSize this = 0 ->
    mem out_archive (files w) = true ->
    mUpdateMode this = false ->
    exists w' : World,
      commit this out_archive new_arc update_callback w
      = (Throw {| what := "Cannot update existing archive file '" ++ out_archive ++ "'" |}, w')
      /\ trace w' = (trace w ++ [EvCreateFile out_archive false])%list
      /\ engine_invocations (trace w') = engine_invocations (trace w)
      /\ files w' = files w.
Proof.
  intros this out_archive new_arc cb w Hvol Hexists Hupd.
  eexists.
  unfold commit, initOutFileStream, Create, GetLastError, log,
    bind, get, modify, when, throw, ret.
  rewrite Hvol; cbn -[mem String.append].
  rewrite Hexists; cbn -[mem String.append].
  rewrite Hupd; cbn -[mem String.append].
  repeat split.
  unfold engine_invocations; cbn [trace].
  rewrite filter_app, length_app; simpl.
  apply Nat.add_0_r.
Qed.

Lemma commit_existing_without_update_mode_witness :
  exists w' : World,
    commit (session sample_library zip_like []) "out.zip" sample_archive
           sample_callback sample_world
    = (Throw {| what := "Cannot update existing archive file 'out.zip'" |}, w')
    /\ trace w' = [EvCreateFile "out.zip" false]
    /\ engine_invocations (trace w') = 0%nat
    /\ files w' = ["out.zip"].
Proof.
  apply (commit_existing_without_update_mode (session sample_library zip_like [])
           "out.zip" sample_archive sample_callback sample_world);
    reflexivity.
Defined.

(** ** Level, method and dictionary size *)

(** C9: whatever the stored dictionary size and whatever the level,
    [setCompressionLevel] throws nothing, stores the level and leaves the
    dictionary size at 0. *)
Theorem setCompressionLevel_resets_dictionary_size :
  forall (this : BitArchiveCreator) (compression_level : BitCompressionLevel),
    fst (setCompressionLevel compression_level this) = Return tt
    /\ mCompressionLevel (snd (setCompressionLevel compression_level this))
       = compression_level
    /\ mDictionarySize (snd (setCompressionLevel compression_level this)) = 0.
Proof.
  intros this compression_level; repeat split.
Qed.

(** C10: for a method valid for the format, [setCompressionMethod] throws
    nothing; when the format has the multiple-methods capability it stores
    the method and resets the dictionary size to 0, and otherwise it leaves
    the object, its dictionary size included, as it was. *)
Theorem setCompressionMethod_resets_dictionary_size :
  forall (this : BitArchiveCreator) (compression_method : BitCompressionMethod.t),
    isValidCompressionMethod (mFormat this) compression_method = true ->
    let this' := snd (setCompressionMethod compression_method this) in
    fst (setCompressionMethod compression_method this) = Return tt
    /\ if hasFeature (mFormat this) MULTIPLE_METHODS
       then mCompressionMethod this' = compression_method /\ mDictionarySize this' = 0
       else this' = this /\ mDictionarySize this' = mDictionarySize this.
Proof.
  intros this m Hvalid; run_setter. rewrite Hvalid; simpl.
  destruct (hasFeature (mFormat this) MULTIPLE_METHODS); simpl; repeat split.
Qed.

Lemma setCompressionMethod_resets_dictionary_size_witness :
  mDictionarySize (session sample_library sevenzip_like [CallSetDictionarySize 4096]) = 4096
  /\ mDictionarySize
       (snd (setCompressionMethod BitCompressionMethod.Ppmd
               (session sample_library sevenzip_like [CallSetDictionarySize 4096])))
     = 0.
Proof.
  split; [reflexivity |].
  apply (setCompressionMethod_resets_dictionary_size
           (session sample_library sevenzip_like [CallSetDictionarySize 4096])
           BitCompressionMethod.Ppmd).
  reflexivity.
Defined.

(** ** Further properties of the property list *)

(** Case analysis on every test [setArchiveProperties] makes while it fills
    the two vectors. *)
Ltac split_archiveProperties this :=
  unfold archiveProperties, push_if, push;
  destruct (mCryptHeaders this && hasFeature (mFormat this) HEADER_ENCRYPTION);
  destruct (hasFeature (mFormat this) COMPRESSION_LEVEL);
  destruct (hasFeature (mFormat this) MULTIPLE_METHODS
            && negb (BitCompressionMethod.eqb (mCompressionMethod this)
                       (defaultMethod (mFormat this))));
  destruct (hasFeature (mFormat this) SOLID_ARCHIVE);
  destruct (negb (mDictionarySize this =? 0));
  destruct (format_is (mFormat this) BitFormat.SevenZip);
  destruct (BitCompressionMethod.eqb (mCompressionMethod this)
              BitCompressionMethod.Ppmd).

(** X1: the vectors [names] and [values] built by [setArchiveProperties]
    have the same number of elements, at most five. *)
Theorem archiveProperties_parallel :
  forall this : BitArchiveCreator,
    List.length (fst (archiveProperties this))
    = List.length (snd (archiveProperties this))
    /\ (List.length (fst (archiveProperties this)) <= 5)%nat.
Proof.
  intros this; split_archiveProperties this; simpl; split;
    solve [reflexivity | repeat constructor].
Qed.

(** X2: no property name is handed to the engine twice. *)
Theorem archiveProperties_names_distinct :
  forall this : BitArchiveCreator, NoDup (fst (archiveProperties this)).
Proof.
  intros this; split_archiveProperties this; simpl;
    repeat (constructor; [simpl; intuition discriminate |]); constructor.
Qed.

(** X3: the level entry "x" is present exactly when the format has a
    variable compression level.  The method entry is present exactly when
    the format has a variable level and several methods and the stored
    method is not the default one; its name is "0" for the 7z format and
    "m" for every other format.  So a format with several methods but
    without a variable level never passes the chosen method on. *)
Theorem archiveProperties_level_and_method :
  forall this : BitArchiveCreator,
    let names := fst (archiveProperties this) in
    let method_sent :=
      hasFeature (mFormat this) COMPRESSION_LEVEL
      && (hasFeature (mFormat this) MULTIPLE_METHODS
          && negb (BitCompressionMethod.eqb (mCompressionMethod this)
                     (defaultMethod (mFormat this)))) in
    mem "x" names = hasFeature (mFormat this) COMPRESSION_LEVEL
    /\ mem "0" names = method_sent && format_is (mFormat this) BitFormat.SevenZip
    /\ mem "m" names = method_sent && negb (format_is (mFormat this) BitFormat.SevenZip).
Proof.
  intros this names method_sent; unfold names, method_sent, mem.
  split_archiveProperties this; repeat split.
Qed.

(** X4: a dictionary-size entry is present exactly when the stored size is
    not 0. *)
Theorem archiveProperties_dictionary_entry_present :
  forall this : BitArchiveCreator,
    let names := fst (archiveProperties this) in
    mem "0mem" names || mem "0d" names || mem "mem" names || mem "d" names
    = negb (mDictionarySize this =? 0).
Proof.
  intros this names; unfold names, mem.
  split_archiveProperties this; reflexivity.
Qed.

(** X5: when the stored dictionary size is not 0, its entry is the last one:
    the name is "0mem" or "0d" for the 7z format and "mem" or "d" for the
    others (the first of each for PPMd), and the value is the size in
    decimal followed by "b". *)
Theorem archiveProperties_dictionary_entry_last :
  forall this : BitArchiveCreator,
    mDictionarySize this <> 0 ->
    exists (names : list wstring) (values : list BitPropVariant),
      archiveProperties this
      = ((names ++ [match format_is (mFormat this) BitFormat.SevenZip,
                          BitCompressionMethod.eqb (mCompressionMethod this)
                            BitCompressionMethod.Ppmd with
                    | true, true => "0mem"
                    | true, false => "0d"
                    | false, true => "mem"
                    | false, false => "d"
                    end])%list,
         (values ++ [PropWString (to_wstring (mDictionarySize this) ++ "b")%string])%list).
Proof.
  intros this Hsize.
  apply Z.eqb_neq in Hsize.
  unfold archiveProperties; cbv zeta; rewrite Hsize; cbn [negb].
  unfold push at 1; cbn [fst snd].
  destruct (format_is (mFormat this) BitFormat.SevenZip),
    (BitCompressionMethod.eqb (mCompressionMethod this) BitCompressionMethod.Ppmd);
    eexists; eexists; reflexivity.
Qed.

Lemma archiveProperties_dictionary_entry_last_witness :
  exists (names : list wstring) (values : list BitPropVariant),
    archiveProperties
      (session sample_library sevenzip_like
         [CallSetCompressionMethod BitCompressionMethod.Ppmd; CallSetDictionarySize 4096])
    = ((names ++ ["0mem"])%list, (values ++ [PropWString "4096b"])%list).
Proof.
  apply (archiveProperties_dictionary_entry_last
           (session sample_library sevenzip_like
              [CallSetCompressionMethod BitCompressionMethod.Ppmd;
               CallSetDictionarySize 4096])).
  discriminate.
Defined.

(** X6: the decimal text [std::to_wstring] produces for a size reads back
    as that size. *)
Theorem to_wstring_reads_back :
  forall n : uint32_t,
    0 <= n ->
    option_map (fun d => Z.of_N (N.of_uint d)) (NilZero.uint_of_string (to_wstring n))
    = Some n.
Proof.
  intros n Hn; unfold to_wstring.
  rewrite NilZero.usu.
  - simpl. rewrite DecimalN.Unsigned.of_to. rewrite Z2N.id by exact Hn. reflexivity.
  - destruct (Z.to_N n) as [| p]; [discriminate |].
    intros H. apply (f_equal N.of_uint) in H.
    rewrite DecimalN.Unsigned.of_to in H. discriminate H.
Qed.

Lemma to_wstring_reads_back_witness :
  option_map (fun d => Z.of_N (N.of_uint d)) (NilZero.uint_of_string (to_wstring 65536))
  = Some 65536.
Proof.
  apply (to_wstring_reads_back 65536). discriminate.
Defined.

(** X7: a freshly constructed object hands the engine the level entry (when
    the format has a variable level) and the solid entry, off (when the
    format supports solid archives), and nothing else: no header-encryption,
    method or dictionary-size entry. *)
Theorem new_BitArchiveCreator_properties :
  forall (lib : Bit7zLibrary) (format : BitInOutFormat),
    archiveProperties (new_BitArchiveCreator lib format)
    = (((if hasFeature format COMPRESSION_LEVEL then ["x"] else [])
        ++ (if hasFeature format SOLID_ARCHIVE then ["s"] else []))%list,
       ((if hasFeature format COMPRESSION_LEVEL
         then [PropUInt32 (level_value NORMAL)] else [])
        ++ (if hasFeature format SOLID_ARCHIVE then [PropBool false] else []))%list).
Proof.
  intros lib format; unfold archiveProperties, push_if, push; simpl.
  assert (E : BitCompressionMethod.eqb (defaultMethod format) (defaultMethod format) = true).
  { destruct (BitCompressionMethod_eqb_spec (defaultMethod format) (defaultMethod format));
      [reflexivity | congruence]. }
  rewrite E, andb_false_r.
  destruct (hasFeature format COMPRESSION_LEVEL), (hasFeature format SOLID_ARCHIVE);
    reflexivity.
Qed.

(** ** Further properties of the setters *)

Ltac destruct_if :=
  match goal with
  | |- context [if ?b then _ else _] => destruct b eqn:?
  end.

Lemma invoke_dictionary_size_consistent :
  forall (c : Call) (this : BitArchiveCreator),
    dictionary_size_consistent this = true ->
    dictionary_size_consistent (after c this) = true.
Proof.
  intros c this H; unfold after; destruct c; simpl; run_setter; try exact H.
  - reflexivity.
  - destruct (isValidCompressionMethod _ _); simpl; [| exact H].
    destruct (hasFeature _ _); [reflexivity | exact H].
  - destruct (isValidDictionarySize _ _) eqn:Ev; simpl; [| exact H].
    destruct_if; [| exact H].
    unfold dictionary_size_consistent; simpl.
    rewrite Ev. simpl.
    match goal with E : _ = true |- _ => rewrite E end.
    apply orb_true_r.
Qed.

(** X8: after the constructor and any sequence of setter calls, the stored
    dictionary size is 0, or it satisfies the bound of the stored method and
    that method is none of Copy, Deflate and Deflate64. *)
Theorem session_dictionary_size_consistent :
  forall (lib : Bit7zLibrary) (format : BitInOutFormat) (calls : list Call),
    let this := session lib format calls in
    mDictionarySize this = 0
    \/ (isValidDictionarySize (mCompressionMethod this) (mDictionarySize this) = true
        /\ mCompressionMethod this <> BitCompressionMethod.Copy
        /\ mCompressionMethod this <> BitCompressionMethod.Deflate
        /\ mCompressionMethod this <> BitCompressionMethod.Deflate64).
Proof.
  intros lib format calls this.
  assert (H : dictionary_size_consistent this = true).
  { apply (session_ind lib format (fun s => dictionary_size_consistent s = true)).
    - reflexivity.
    - apply invoke_dictionary_size_consistent. }
  unfold dictionary_size_consistent in H.
  apply orb_true_iff in H; destruct H as [H | H].
  - left; apply Z.eqb_eq, H.
  - right.
    apply andb_true_iff in H; destruct H as [Hv H].
    apply andb_true_iff in H; destruct H as [H H64].
    apply andb_true_iff in H; destruct H as [Hc Hd].
    repeat split; try exact Hv; intros E; rewrite E in *; discriminate.
Qed.

(** X9: after the constructor and any sequence of setter calls, an object
    whose stored method is Copy, Deflate or Deflate64 has dictionary size 0
    and hands no dictionary-size entry to the engine. *)
Theorem session_fixed_method_no_dictionary_entry :
  forall (lib : Bit7zLibrary) (format : BitInOutFormat) (calls : list Call),
    let this := session lib format calls in
    mCompressionMethod this = BitCompressionMethod.Copy
    \/ mCompressionMethod this = BitCompressionMethod.Deflate
    \/ mCompressionMethod this = BitCompressionMethod.Deflate64 ->
    mDictionarySize this = 0
    /\ forall name : wstring,
         In name ["0mem"; "0d"; "mem"; "d"] ->
         mem name (fst (archiveProperties this)) = false.
Proof.
  intros lib format calls this Hfixed.
  assert (H : dictionary_size_consistent this = true).
  { apply (session_ind lib format (fun s => dictionary_size_consistent s = true)).
    - reflexivity.
    - apply invoke_dictionary_size_consistent. }
  assert (Hzero : (mDictionarySize this =? 0) = true).
  { unfold dictionary_size_consistent in H.
    destruct Hfixed as [E | [E | E]]; rewrite E in H; simpl in H;
      rewrite ?andb_false_r, ?orb_false_r in H; exact H. }
  split; [apply Z.eqb_eq, Hzero |].
  intros name Hname.
  unfold archiveProperties, push_if, push, mem; rewrite Hzero; cbn [negb].
  destruct (mCryptHeaders this && hasFeature (mFormat this) HEADER_ENCRYPTION);
    destruct (hasFeature (mFormat this) COMPRESSION_LEVEL);
    destruct (hasFeature (mFormat this) MULTIPLE_METHODS
              && negb (BitCompressionMethod.eqb (mCompressionMethod this)
                         (defaultMethod (mFormat this))));
    destruct (hasFeature (mFormat this) SOLID_ARCHIVE);
    destruct (format_is (mFormat this) BitFormat.SevenZip);
    simpl in Hname;
    destruct Hname as [<- | [<- | [<- | [<- | []]]]]; reflexivity.
Qed.

Lemma session_fixed_method_no_dictionary_entry_witness :
  mDictionarySize
    (session sample_library zip_like
       [CallSetCompressionMethod BitCompressionMethod.Lzma; CallSetDictionarySize 4096;
        CallSetCompressionMethod BitCompressionMethod.Deflate64;
        CallSetDictionarySize 65536]) = 0.
Proof.
  apply (session_fixed_method_no_dictionary_entry sample_library zip_like
           [CallSetCompressionMethod BitCompressionMethod.Lzma; CallSetDictionarySize 4096;
            CallSetCompressionMethod BitCompressionMethod.Deflate64;
            CallSetDictionarySize 65536]).
  right; right; reflexivity.
Defined.

(** X10: when the default method of the format is valid for the format, the
    stored method is valid for the format after the constructor and any
    sequence of setter calls. *)
Theorem session_method_valid :
  forall (lib : Bit7zLibrary) (format : BitInOutFormat) (calls : list Call),
    isValidCompressionMethod format (defaultMethod format) = true ->
    isValidCompressionMethod format (mCompressionMethod (session lib format calls)) = true.
Proof.
  intros lib format calls Hdefault.
  cut (mFormat (session lib format calls) = format
       /\ isValidCompressionMethod format
            (mCompressionMethod (session lib format calls)) = true).
  { intros [_ H]; exact H. }
  apply (session_ind lib format (fun this =>
    mFormat this = format
    /\ isValidCompressionMethod format (mCompressionMethod this) = true)).
  - split; [reflexivity | exact Hdefault].
  - intros c this [Hf Hm]; split; [rewrite invoke_mFormat; exact Hf |].
    unfold after; destruct c; simpl; run_setter; try exact Hm.
    + rewrite Hf.
      destruct (isValidCompressionMethod format compression_method) eqn:Ev;
        simpl; [| exact Hm].
      destruct (hasFeature format MULTIPLE_METHODS); simpl; [exact Ev | exact Hm].
    + destruct (isValidDictionarySize _ _); simpl; [| exact Hm].
      destruct_if; exact Hm.
Qed.

Lemma session_method_valid_witness :
  isValidCompressionMethod zip_like
    (mCompressionMethod
       (session sample_library zip_like
          [CallSetCompressionMethod BitCompressionMethod.Lzma2;
           CallSetCompressionMethod BitCompressionMethod.BZip2;
           CallSetCompressionMethod BitCompressionMethod.Lzma2])) = true.
Proof.
  apply (session_method_valid sample_library zip_like
           [CallSetCompressionMethod BitCompressionMethod.Lzma2;
            CallSetCompressionMethod BitCompressionMethod.BZip2;
            CallSetCompressionMethod BitCompressionMethod.Lzma2]).
  reflexivity.
Defined.

(** X11: while the stored method is Copy, Deflate or Deflate64,
    [setDictionarySize] never changes the object, whether it accepts the
    size or throws; for Copy it accepts every size. *)
Theorem setDictionarySize_fixed_methods_ignored :
  forall (this : BitArchiveCreator) (dictionary_size : uint32_t),
    mCompressionMethod this = BitCompressionMethod.Copy
    \/ mCompressionMethod this = BitCompressionMethod.Deflate
    \/ mCompressionMethod this = BitCompressionMethod.Deflate64 ->
    snd (setDictionarySize dictionary_size this) = this
    /\ (mCompressionMethod this = BitCompressionMethod.Copy ->
        fst (setDictionarySize dictionary_size this) = Return tt).
Proof.
  intros this d Hfixed; run_setter.
  destruct Hfixed as [E | [E | E]]; rewrite E; simpl.
  - split; reflexivity.
  - split; [| discriminate]. destruct (d =? _); reflexivity.
  - split; [| discriminate]. destruct (d =? _); reflexivity.
Qed.

Lemma setDictionarySize_fixed_methods_ignored_witness :
  snd (setDictionarySize 32768 (session sample_library gzip_like []))
  = session sample_library gzip_like [].
Proof.
  apply (setDictionarySize_fixed_methods_ignored
           (session sample_library gzip_like []) 32768).
  right; left; reflexivity.
Defined.

(** X12: when the stored method is none of Copy, Deflate and Deflate64 and
    the size satisfies the bound of the method, [setDictionarySize] throws
    nothing, stores the size and changes no other field. *)
Theorem setDictionarySize_stores_valid_size :
  forall (this : BitArchiveCreator) (dictionary_size : uint32_t),
    mCompressionMethod this <> BitCompressionMethod.Copy ->
    mCompressionMethod this <> BitCompressionMethod.Deflate ->
    mCompressionMethod this <> BitCompressionMethod.Deflate64 ->
    isValidDictionarySize (mCompressionMethod this) dictionary_size = true ->
    let this' := snd (setDictionarySize dictionary_size this) in
    fst (setDictionarySize dictionary_size this) = Return tt
    /\ mDictionarySize this' = dictionary_size
    /\ set_mDictionarySize (mDictionarySize this) this' = this.
Proof.
  intros this d Hc Hd H64 Hv; run_setter. rewrite Hv; simpl.
  destruct (mCompressionMethod this) eqn:E; try congruence; simpl;
    destruct this; simpl in *; subst; repeat split.
Qed.

Lemma setDictionarySize_stores_valid_size_witness :
  mDictionarySize (snd (setDictionarySize 921600
     (session sample_library zip_like
        [CallSetCompressionMethod BitCompressionMethod.BZip2]))) = 921600.
Proof.
  apply (setDictionarySize_stores_valid_size
           (session sample_library zip_like
              [CallSetCompressionMethod BitCompressionMethod.BZip2]) 921600);
    try discriminate; reflexivity.
Defined.

(** X13: the one-argument [setPassword] stores the password; with a
    non-empty password it leaves the header-encryption flag as it is; and
    once it has been called with an empty password, a later call with any
    password leaves header encryption off. *)
Theorem setPassword_header_encryption :
  forall (this : BitArchiveCreator) (password : wstring),
    fst (setPassword password this) = Return tt
    /\ mPassword (snd (setPassword password this)) = password
    /\ (empty password = false ->
        mCryptHeaders (snd (setPassword password this)) = mCryptHeaders this)
    /\ mCryptHeaders
         (snd (setPassword password (snd (setPassword EmptyString this)))) = false.
Proof.
  intros this password; run_setter; rewrite empty_length.
  repeat split.
  - intros ->; reflexivity.
  - apply andb_false_r.
Qed.

Lemma setPassword_header_encryption_witness :
  mCryptHeaders
    (snd (setPassword "secret"
            (session sample_library sevenzip_like [CallSetPassword2 "first" true])))
  = true.
Proof.
  apply (setPassword_header_encryption
           (session sample_library sevenzip_like [CallSetPassword2 "first" true])
           "secret").
  reflexivity.
Defined.

(** X14: a setter call throws only in two cases: [setCompressionMethod] with
    a method that is not valid for the format, and [setDictionarySize] with
    a size that is not valid for the stored method; the message tells
    which. *)
Theorem setter_rejections :
  forall (c : Call) (this : BitArchiveCreator) (e : BitException),
    fst (invoke c this) = Throw e ->
    (exists m, c = CallSetCompressionMethod m
               /\ isValidCompressionMethod (mFormat this) m = false
               /\ what e = "Invalid compression method for the chosen archive format")
    \/ (exists d, c = CallSetDictionarySize d
                  /\ isValidDictionarySize (mCompressionMethod this) d = false
                  /\ what e = "Invalid dictionary size for the chosen compression method").
Proof.
  intros c this e; destruct c; simpl; run_setter; try discriminate.
  - destruct (isValidCompressionMethod _ _) eqn:Ev; simpl.
    + destruct (hasFeature _ _); discriminate.
    + intros H; inversion H; left; eexists; repeat split; exact Ev.
  - destruct (isValidDictionarySize _ _) eqn:Ev; simpl.
    + destruct_if; discriminate.
    + intros H; inversion H; right; eexists; repeat split; exact Ev.
Qed.

Lemma setter_rejections_witness :
  (exists m, CallSetDictionarySize 70000 = CallSetCompressionMethod m
             /\ isValidCompressionMethod
                  (mFormat (session sample_library zip_like
                     [CallSetCompressionMethod BitCompressionMethod.Deflate64])) m = false
             /\ "Invalid dictionary size for the chosen compression method"
                = "Invalid compression method for the chosen archive format")
  \/ (exists d, CallSetDictionarySize 70000 = CallSetDictionarySize d
                /\ isValidDictionarySize
                     (mCompressionMethod (session sample_library zip_like
                        [CallSetCompressionMethod BitCompressionMethod.Deflate64])) d = false
                /\ "Invalid dictionary size for the chosen compression method"
                   = "Invalid dictionary size for the chosen compression method").
Proof.
  apply (setter_rejections (CallSetDictionarySize 70000)
           (session sample_library zip_like
              [CallSetCompressionMethod BitCompressionMethod.Deflate64])
           {| what := "Invalid dictionary size for the chosen compression method" |}).
  reflexivity.
Defined.

(** X15: every setter is idempotent: calling it a second time with the same
    argument leaves the object as the first call left it. *)
Theorem setter_idempotent :
  forall (c : Call) (this : BitArchiveCreator),
    after c (after c this) = after c this.
Proof.
  intros c this; unfold after; destruct c; simpl.
  - run_setter. destruct this; unfold set_mCryptHeaders, set_mPassword; simpl.
    destruct (0 <? _); reflexivity.
  - reflexivity.
  - reflexivity.
  - run_setter.
    destruct (isValidCompressionMethod (mFormat this) compression_method) eqn:Ev; simpl.
    + destruct (hasFeature (mFormat this) MULTIPLE_METHODS) eqn:Ef; simpl;
        rewrite Ev; simpl; rewrite Ef; reflexivity.
    + rewrite Ev; reflexivity.
  - run_setter.
    destruct (isValidDictionarySize (mCompressionMethod this) dictionary_size) eqn:Ev; simpl.
    + destruct (negb (BitCompressionMethod.eqb (mCompressionMethod this)
                        BitCompressionMethod.Copy)
                && negb (BitCompressionMethod.eqb (mCompressionMethod this)
                           BitCompressionMethod.Deflate)
                && negb (BitCompressionMethod.eqb (mCompressionMethod this)
                           BitCompressionMethod.Deflate64)) eqn:Ef; simpl;
        rewrite Ev; simpl; rewrite Ef; reflexivity.
    + rewrite Ev; reflexivity.
  - reflexivity.
  - reflexivity.
  - reflexivity.
Qed.

(** X16: no setter changes the format or the library of the object: after
    any sequence of calls they are the ones given to the constructor. *)
Theorem session_format_and_library_fixed :
  forall (lib : Bit7zLibrary) (format : BitInOutFormat) (calls : list Call),
    mFormat (session lib format calls) = format
    /\ mLibrary (session lib format calls) = lib.
Proof.
  intros lib format calls; split; [apply session_mFormat |].
  apply (session_ind lib format (fun this => mLibrary this = lib)).
  - reflexivity.
  - intros c this H; unfold after; destruct c; simpl; run_setter; try exact H.
    + destruct (isValidCompressionMethod _ _); simpl; [| exact H].
      destruct (hasFeature _ _); exact H.
    + destruct (isValidDictionarySize _ _); simpl; [| exact H].
      destruct_if; exact H.
Qed.

(** X17: [methodName] gives different names to different named methods, and
    the empty name to the values of the enumeration it does not know. *)
Theorem methodName_injective :
  forall a b : BitCompressionMethod.t,
    methodName a = methodName b ->
    a = b
    \/ (exists x y, a = BitCompressionMethod.Other x /\ b = BitCompressionMethod.Other y
                    /\ methodName a = EmptyString).
Proof.
  intros a b; destruct a, b; simpl; intros H; try discriminate H;
    try (left; reflexivity).
  right; eexists; eexists; repeat split.
Qed.

Lemma methodName_injective_witness :
  BitCompressionMethod.Lzma = BitCompressionMethod.Lzma
  \/ (exists x y, BitCompressionMethod.Lzma = BitCompressionMethod.Other x
                  /\ BitCompressionMethod.Lzma = BitCompressionMethod.Other y
                  /\ methodName BitCompressionMethod.Lzma = EmptyString).
Proof.
  apply (methodName_injective BitCompressionMethod.Lzma BitCompressionMethod.Lzma).
  reflexivity.
Defined.

(** ** Further properties of the calls to the engine *)

Ltac run_world :=
  unfold setArchiveProperties, initOutArchive, initOutFileStream, compressOut,
    cleanupOldArc, call_SetProperties, call_UpdateItems, Create, GetLastError,
    renameFile, lift, log, rethrow, bind, get, modify, when, throw, ret.

Lemma engine_invocations_snoc :
  forall (t : list Event) (e : Event),
    engine_invocations (t ++ [e])
    = (engine_invocations t
       + match e with EvUpdateItems _ => 1 | _ => 0 end)%nat.
Proof.
  intros t e; unfold engine_invocations.
  rewrite filter_app, length_app; destruct e; reflexivity.
Qed.

(** [setArchiveProperties] leaves the files alone and does not ask the
    engine to compress. *)
Lemma setArchiveProperties_world :
  forall (this : BitArchiveCreator) (out_archive : IOutArchive) (w : World),
    let w' := snd (setArchiveProperties this out_archive w) in
    files w' = files w
    /\ blocked w' = blocked w
    /\ engine_invocations (trace w') = engine_invocations (trace w).
Proof.
  intros this out_archive w; run_world.
  destruct (archiveProperties this) as [names values].
  destruct names as [| name names]; simpl; [repeat split |].
  destruct (QueryInterface_ISetProperties out_archive); simpl; [| repeat split].
  destruct (SetProperties out_archive (name :: names) values =? S_OK); simpl;
    repeat split; rewrite engine_invocations_snoc; apply Nat.add_0_r.
Qed.

(** X18: when the format has neither a variable level nor solid archives,
    header encryption is off or unsupported and the dictionary size is 0,
    [setArchiveProperties] does nothing: it does not query the engine for
    [ISetProperties] and does not call [SetProperties]. *)
Theorem setArchiveProperties_nothing_to_set :
  forall (this : BitArchiveCreator) (out_archive : IOutArchive) (w : World),
    hasFeature (mFormat this) COMPRESSION_LEVEL = false ->
    hasFeature (mFormat this) SOLID_ARCHIVE = false ->
    mCryptHeaders this && hasFeature (mFormat this) HEADER_ENCRYPTION = false ->
    mDictionarySize this = 0 ->
    setArchiveProperties this out_archive w = (Return tt, w).
Proof.
  intros this out_archive w Hl Hs Hh Hd.
  unfold setArchiveProperties, archiveProperties, push_if.
  rewrite Hl, Hs, Hh, Hd. reflexivity.
Qed.

Lemma setArchiveProperties_nothing_to_set_witness :
  setArchiveProperties (session sample_library plain_format [CallSetPassword2 "pw" true])
    bare_archive empty_world
  = (Return tt, empty_world).
Proof.
  apply (setArchiveProperties_nothing_to_set
           (session sample_library plain_format [CallSetPassword2 "pw" true])
           bare_archive empty_world);
    reflexivity.
Defined.

(** X19: when there is a property to set and the engine handle does not
    expose [ISetProperties], [setArchiveProperties] throws "ISetProperties
    unsupported" and [SetProperties] is not called. *)
Theorem setArchiveProperties_unsupported :
  forall (this : BitArchiveCreator) (out_archive : IOutArchive) (w : World),
    fst (archiveProperties this) <> [] ->
    QueryInterface_ISetProperties out_archive = false ->
    setArchiveProperties this out_archive w
    = (Throw {| what := "ISetProperties unsupported" |}, w).
Proof.
  intros this out_archive w Hnames Hq; run_world.
  destruct (archiveProperties this) as [names values]; simpl in Hnames.
  destruct names as [| name names]; [contradiction |].
  simpl; rewrite Hq; reflexivity.
Qed.

Lemma setArchiveProperties_unsupported_witness :
  setArchiveProperties (session sample_library gzip_like []) bare_archive empty_world
  = (Throw {| what := "ISetProperties unsupported" |}, empty_world).
Proof.
  apply (setArchiveProperties_unsupported (session sample_library gzip_like [])
           bare_archive empty_world).
  - discriminate.
  - reflexivity.
Defined.

(** X20: when there is a property to set and the engine handle exposes
    [ISetProperties], [setArchiveProperties] calls [SetProperties] once, with
    the two vectors; it returns when the result is [S_OK] and throws "Cannot
    set properties of the archive" for every other result. *)
Theorem setArchiveProperties_calls_engine :
  forall (this : BitArchiveCreator) (out_archive : IOutArchive) (w : World),
    fst (archiveProperties this) <> [] ->
    QueryInterface_ISetProperties out_archive = true ->
    let names := fst (archiveProperties this) in
    let values := snd (archiveProperties this) in
    fst (setArchiveProperties this out_archive w)
    = (if SetProperties out_archive names values =? S_OK
       then Return tt
       else Throw {| what := "Cannot set properties of the archive" |})
    /\ trace (snd (setArchiveProperties this out_archive w))
       = (trace w ++ [EvSetProperties names values])%list.
Proof.
  intros this out_archive w Hnames Hq; run_world.
  destruct (archiveProperties this) as [names values]; simpl in *.
  destruct names as [| name names]; [contradiction |].
  simpl; rewrite Hq; simpl.
  destruct (SetProperties out_archive (name :: names) values =? S_OK);
    split; reflexivity.
Qed.

Lemma setArchiveProperties_calls_engine_witness :
  fst (setArchiveProperties (session sample_library gzip_like [])
         refusing_archive empty_world)
  = Throw {| what := "Cannot set properties of the archive" |}
  /\ trace (snd (setArchiveProperties (session sample_library gzip_like [])
                   refusing_archive empty_world))
     = [EvSetProperties ["x"] [PropUInt32 (level_value NORMAL)]].
Proof.
  apply (setArchiveProperties_calls_engine (session sample_library gzip_like [])
           refusing_archive empty_world).
  - discriminate.
  - reflexivity.
Defined.

(** X21: [initOutArchive] returns, when it returns, the handle the library
    creates for the format of the object; it creates no file and does not
    ask the engine to compress. *)
Theorem initOutArchive_handle :
  forall (this : BitArchiveCreator) (w : World),
    let w' := snd (initOutArchive this w) in
    files w' = files w
    /\ engine_invocations (trace w') = engine_invocations (trace w)
    /\ forall new_arc : IOutArchive,
         fst (initOutArchive this w) = Return new_arc ->
         new_arc = createArchiveObject (mLibrary this) (value (mFormat this)).
Proof.
  intros this w.
  pose proof (setArchiveProperties_world this
                (createArchiveObject (mLibrary this) (value (mFormat this))) w)
    as [Hf [_ He]].
  unfold initOutArchive, bind, ret.
  destruct (setArchiveProperties this
              (createArchiveObject (mLibrary this) (value (mFormat this))) w)
    as [[[] | e] w1]; simpl in *; repeat split; try assumption.
  - intros new_arc H; inversion H; reflexivity.
  - intros new_arc H; discriminate H.
Qed.

Lemma initOutArchive_handle_witness :
  files (snd (initOutArchive (session sample_library zip_like []) empty_world)) = [].
Proof.
  apply (initOutArchive_handle (session sample_library zip_like []) empty_world).
Defined.



(** ** Further properties of the choice of the output stream *)

Ltac run_stream :=
  unfold initOutFileStream, cleanupOldArc, Create, GetLastError, renameFile,
    lift, log, rethrow, bind, get, modify, when, throw, ret.

Ltac step_with H := rewrite H; cbn -[mem String.append setArchiveProperties].

Lemma length_append :
  forall a b : wstring,
    String.length (a ++ b) = (String.length a + String.length b)%nat.
Proof.
  induction a as [| c a IH]; intros b; simpl; [reflexivity |].
  rewrite IH; reflexivity.
Qed.

Lemma temp_path_differs :
  forall path : wstring, String.eqb (path ++ ".tmp") path = false.
Proof.
  intros path; apply String.eqb_neq; intros E.
  apply (f_equal String.length) in E.
  rewrite length_append in E; simpl in E; lia.
Qed.

Lemma setArchiveProperties_accepts :
  forall (this : BitArchiveCreator) (out_archive : IOutArchive) (w : World),
    QueryInterface_ISetProperties out_archive = true ->
    SetProperties out_archive (fst (archiveProperties this))
      (snd (archiveProperties this)) = S_OK ->
    fst (setArchiveProperties this out_archive w) = Return tt.
Proof.
  intros this out_archive w Hq Hs; run_world.
  destruct (archiveProperties this) as [names values]; simpl in *.
  destruct names as [| name names]; [reflexivity |].
  simpl; rewrite Hq; simpl; rewrite Hs; reflexivity.
Qed.

(** X23: with a volume size above 0, [initOutFileStream] returns a
    multi-volume stream for the path and touches nothing: it creates no
    file, whether the path exists or not and whatever the update mode, and
    it leaves [new_arc] and [old_arc] as they are. *)
Theorem initOutFileStream_multivolume :
  forall (this : BitArchiveCreator) (out_archive : wstring) (new_arc : IOutArchive)
         (old_arc : option BitInputArchive) (w : World),
    0 < mVolumeSize this ->
    initOutFileStream this out_archive new_arc old_arc w
    = (Return (COutMultiVolStream (mVolumeSize this) out_archive, new_arc, old_arc), w).
Proof.
  intros this out_archive new_arc old_arc w Hvol.
  apply Z.ltb_lt in Hvol.
  unfold initOutFileStream; rewrite Hvol; reflexivity.
Qed.

Lemma initOutFileStream_multivolume_witness :
  initOutFileStream
    (session sample_library zip_like [CallSetVolumeSize 1048576; CallSetUpdateMode true])
    "out.zip" sample_archive None sample_world
  = (Return (COutMultiVolStream 1048576 "out.zip", sample_archive, None), sample_world).
Proof.
  apply (initOutFileStream_multivolume
           (session sample_library zip_like
              [CallSetVolumeSize 1048576; CallSetUpdateMode true])
           "out.zip" sample_archive None sample_world).
  reflexivity.
Defined.

(** X24: with volume size 0 and a path at which no file exists and a file
    can be created, [initOutFileStream] creates the file and returns a file
    stream on it, with [new_arc] and [old_arc] as they were; the update mode
    plays no part and the engine is not called. *)
Theorem initOutFileStream_new_file :
  forall (this : BitArchiveCreator) (out_archive : wstring) (new_arc : IOutArchive)
         (old_arc : option BitInputArchive) (w : World),
    mVolumeSize this = 0 ->
    mem out_archive (files w) = false ->
    mem out_archive (blocked w) = false ->
    initOutFileStream this out_archive new_arc old_arc w
    = (Return (COutFileStream out_archive, new_arc, old_arc),
       {| files := out_archive :: files w;
          blocked := blocked w;
          lastError := lastError w;
          trace := (trace w ++ [EvCreateFile out_archive true])%list |}).
Proof.
  intros this out_archive new_arc old_arc w Hvol Hf Hb; run_stream.
  step_with Hvol. step_with Hf. step_with Hb. reflexivity.
Qed.

Lemma initOutFileStream_new_file_witness :
  initOutFileStream (session sample_library zip_like []) "new.zip" sample_archive None
    sample_world
  = (Return (COutFileStream "new.zip", sample_archive, None),
     {| files := ["new.zip"; "out.zip"]; blocked := []; lastError := 0;
        trace := [EvCreateFile "new.zip" true] |}).
Proof.
  apply (initOutFileStream_new_file (session sample_library zip_like [])
           "new.zip" sample_archive None sample_world);
    reflexivity.
Defined.

(** X25: with volume size 0, when the file cannot be created for a reason
    other than its existence, [initOutFileStream] throws "Cannot create
    output archive file '<path>'", whatever the update mode, and no file is
    created. *)
Theorem initOutFileStream_cannot_create :
  forall (this : BitArchiveCreator) (out_archive : wstring) (new_arc : IOutArchive)
         (old_arc : option BitInputArchive) (w : World),
    mVolumeSize this = 0 ->
    mem out_archive (files w) = false ->
    mem out_archive (blocked w) = true ->
    exists w' : World,
      initOutFileStream this out_archive new_arc old_arc w
      = (Throw {| what := "Cannot create output archive file '" ++ out_archive ++ "'" |}, w')
      /\ files w' = files w
      /\ trace w' = (trace w ++ [EvCreateFile out_archive false])%list.
Proof.
  intros this out_archive new_arc old_arc w Hvol Hf Hb; run_stream.
  step_with Hvol. step_with Hf. step_with Hb.
  eexists; repeat split.
Qed.

Lemma initOutFileStream_cannot_create_witness :
  exists w' : World,
    initOutFileStream (session sample_library zip_like [CallSetUpdateMode true])
      "out.zip" sample_archive None locked_world
    = (Throw {| what := "Cannot create output archive file 'out.zip'" |}, w')
    /\ files w' = []
    /\ trace w' = [EvCreateFile "out.zip" false].
Proof.
  apply (initOutFileStream_cannot_create
           (session sample_library zip_like [CallSetUpdateMode true])
           "out.zip" sample_archive None locked_world);
    reflexivity.
Defined.

(** X26: with volume size 0 and update mode on, when the file exists and
    the format cannot hold several files, [initOutFileStream] throws "Format
    does not support updating existing archive files"; no temporary file is
    created and the existing archive is not opened. *)
Theorem initOutFileStream_format_cannot_update :
  forall (this : BitArchiveCreator) (out_archive : wstring) (new_arc : IOutArchive)
         (old_arc : option BitInputArchive) (w : World),
    mVolumeSize this = 0 ->
    mem out_archive (files w) = true ->
    mUpdateMode this = true ->
    hasFeature (mFormat this) MULTIPLE_FILES = false ->
    exists w' : World,
      initOutFileStream this out_archive new_arc old_arc w
      = (Throw {| what := "Format does not support updating existing archive files" |}, w')
      /\ files w' = files w
      /\ trace w' = (trace w ++ [EvCreateFile out_archive false])%list.
Proof.
  intros this out_archive new_arc old_arc w Hvol Hf Hu Hm; run_stream.
  step_with Hvol. step_with Hf. step_with Hu. step_with Hm.
  eexists; repeat split.
Qed.

Lemma initOutFileStream_format_cannot_update_witness :
  exists w' : World,
    initOutFileStream (session sample_library gzip_like [CallSetUpdateMode true])
      "out.zip" sample_archive None sample_world
    = (Throw {| what := "Format does not support updating existing archive files" |}, w')
    /\ files w' = ["out.zip"]
    /\ trace w' = [EvCreateFile "out.zip" false].
Proof.
  apply (initOutFileStream_format_cannot_update
           (session sample_library gzip_like [CallSetUpdateMode true])
           "out.zip" sample_archive None sample_world);
    reflexivity.
Defined.

(** X27: with volume size 0, update mode on and a format that can hold
    several files, when the file exists and so does its temporary file
    "<path>.tmp", [initOutFileStream] throws "Cannot create temp archive
    file for updating '<path>'"; the existing archive is not opened and no
    file is created or replaced. *)
Theorem initOutFileStream_temp_exists :
  forall (this : BitArchiveCreator) (out_archive : wstring) (new_arc : IOutArchive)
         (old_arc : option BitInputArchive) (w : World),
    mVolumeSize this = 0 ->
    mem out_archive (files w) = true ->
    mUpdateMode this = true ->
    hasFeature (mFormat this) MULTIPLE_FILES = true ->
    mem (out_archive ++ ".tmp") (files w) = true ->
    exists w' : World,
      initOutFileStream this out_archive new_arc old_arc w
      = (Throw {| what := "Cannot create temp archive file for updating '"
                          ++ out_archive ++ "'" |}, w')
      /\ files w' = files w
      /\ trace w' = (trace w ++ [EvCreateFile out_archive false;
                                 EvCreateFile (out_archive ++ ".tmp")%string false])%list.
Proof.
  intros this out_archive new_arc old_arc w Hvol Hf Hu Hm Ht; run_stream.
  step_with Hvol. step_with Hf. step_with Hu. step_with Hm. step_with Ht.
  eexists; repeat split.
  rewrite <- app_assoc; reflexivity.
Qed.

Lemma initOutFileStream_temp_exists_witness :
  exists w' : World,
    initOutFileStream (session sample_library zip_like [CallSetUpdateMode true])
      "out.zip" sample_archive None stale_temp_world
    = (Throw {| what := "Cannot create temp archive file for updating 'out.zip'" |}, w')
    /\ files w' = ["out.zip"; "out.zip.tmp"]
    /\ trace w' = [EvCreateFile "out.zip" false; EvCreateFile "out.zip.tmp" false].
Proof.
  apply (initOutFileStream_temp_exists
           (session sample_library zip_like [CallSetUpdateMode true])
           "out.zip" sample_archive None stale_temp_world);
    reflexivity.
Defined.

(** The run of [initOutFileStream] on the update path. *)
Lemma initOutFileStream_update_run :
  forall (this : BitArchiveCreator) (out_archive : wstring) (new_arc : IOutArchive)
         (old_arc : option BitInputArchive) (w : World)
         (old : BitInputArchive) (updatable : IOutArchive),
    mVolumeSize this = 0 ->
    mem out_archive (files w) = true ->
    mUpdateMode this = true ->
    hasFeature (mFormat this) MULTIPLE_FILES = true ->
    mem (out_archive ++ ".tmp") (files w) = false ->
    mem (out_archive ++ ".tmp") (blocked w) = false ->
    openInputArchive (mLibrary this) (value (mFormat this)) out_archive = inr old ->
    initUpdatableArchive old = inr updatable ->
    QueryInterface_ISetProperties updatable = true ->
    SetProperties updatable (fst (archiveProperties this))
      (snd (archiveProperties this)) = S_OK ->
    exists w' : World,
      initOutFileStream this out_archive new_arc old_arc w
      = (Return (COutFileStream (out_archive ++ ".tmp"), updatable, Some old), w')
      /\ files w' = (out_archive ++ ".tmp") :: files w
      /\ blocked w' = blocked w
      /\ engine_invocations (trace w') = engine_invocations (trace w).
Proof.
  intros this out_archive new_arc old_arc w old updatable
         Hvol Hf Hu Hm Ht Htb Hopen Hupd Hq Hs; run_stream.
  step_with Hvol. step_with Hf. step_with Hu. step_with Hm.
  step_with Ht. step_with Htb. step_with Hopen. step_with Hupd.
  match goal with
  | |- context [setArchiveProperties this updatable ?w0] =>
      pose proof (setArchiveProperties_accepts this updatable w0 Hq Hs) as Hok;
      pose proof (setArchiveProperties_world this updatable w0) as [Hfiles [Hblocked Hengine]];
      destruct (setArchiveProperties this updatable w0) as [[[] | e] w1]
  end; simpl in Hok; [| discriminate Hok].
  exists w1; simpl in *.
  repeat split; try assumption.
  rewrite Hengine, !engine_invocations_snoc; simpl.
  rewrite !Nat.add_0_r; reflexivity.
Qed.

(** X28: with volume size 0, update mode on and a format that can hold
    several files, when the file exists, its temporary file can be created,
    the existing archive opens and gives an update-capable handle, and that
    handle accepts the properties, [initOutFileStream] returns a file stream
    on "<path>.tmp", replaces [new_arc] by the handle of the existing archive
    and sets [old_arc]; the temporary file is the only file created and the
    engine has not been asked to compress. *)
Theorem initOutFileStream_update :
  forall (this : BitArchiveCreator) (out_archive : wstring) (new_arc : IOutArchive)
         (old_arc : option BitInputArchive) (w : World)
         (old : BitInputArchive) (updatable : IOutArchive),
    mVolumeSize this = 0 ->
    mem out_archive (files w) = true ->
    mUpdateMode this = true ->
    hasFeature (mFormat this) MULTIPLE_FILES = true ->
    mem (out_archive ++ ".tmp") (files w) = false ->
    mem (out_archive ++ ".tmp") (blocked w) = false ->
    openInputArchive (mLibrary this) (value (mFormat this)) out_archive = inr old ->
    initUpdatableArchive old = inr updatable ->
    QueryInterface_ISetProperties updatable = true ->
    SetProperties updatable (fst (archiveProperties this))
      (snd (archiveProperties this)) = S_OK ->
    exists w' : World,
      initOutFileStream this out_archive new_arc old_arc w
      = (Return (COutFileStream (out_archive ++ ".tmp"), updatable, Some old), w')
      /\ files w' = (out_archive ++ ".tmp") :: files w
      /\ blocked w' = blocked w
      /\ engine_invocations (trace w') = engine_invocations (trace w).
Proof.
  intros this out_archive new_arc old_arc w old updatable.
  apply initOutFileStream_update_run.
Qed.

Lemma initOutFileStream_update_witness :
  exists w' : World,
    initOutFileStream (session sample_library zip_like [CallSetUpdateMode true])
      "out.zip" failing_archive None sample_world
    = (Return (COutFileStream "out.zip.tmp", sample_archive,
               Some {| archivePath := "out.zip";
                       initUpdatableArchive := inr sample_archive |}), w')
    /\ files w' = ["out.zip.tmp"; "out.zip"]
    /\ blocked w' = []
    /\ engine_invocations (trace w') = 0%nat.
Proof.
  apply (initOutFileStream_update
           (session sample_library zip_like [CallSetUpdateMode true])
           "out.zip" failing_archive None sample_world
           {| archivePath := "out.zip"; initUpdatableArchive := inr sample_archive |}
           sample_archive);
    reflexivity.
Defined.

(** X29: whatever the settings, the path and the world, [initOutFileStream]
    never asks the engine to compress and never removes a file: every file
    that existed before the call exists after it. *)
Theorem initOutFileStream_never_compresses :
  forall (this : BitArchiveCreator) (out_archive : wstring) (new_arc : IOutArchive)
         (old_arc : option BitInputArchive) (w : World),
    let w' := snd (initOutFileStream this out_archive new_arc old_arc w) in
    engine_invocations (trace w') = engine_invocations (trace w)
    /\ blocked w' = blocked w
    /\ forall path : wstring, mem path (files w) = true -> mem path (files w') = true.
Proof.
  intros this out_archive new_arc old_arc w; run_stream.
  assert (Hcons : forall (p q : wstring) (l : list wstring),
             mem p l = true -> mem p (q :: l) = true).
  { intros p q l H; unfold mem in *; simpl; rewrite H; apply orb_true_r. }
  assert (Hsnoc : forall (t : list Event) (p : wstring) (b : bool),
             engine_invocations (t ++ [EvCreateFile p b]) = engine_invocations t).
  { intros t p b; rewrite engine_invocations_snoc; apply Nat.add_0_r. }
  assert (Hopen : forall (t : list Event) (p : wstring),
             engine_invocations (t ++ [EvOpenArchive p]) = engine_invocations t).
  { intros t p; rewrite engine_invocations_snoc; apply Nat.add_0_r. }
  destruct (0 <? mVolumeSize this); [repeat split; auto |].
  cbn -[mem String.append setArchiveProperties engine_invocations].
  destruct (mem out_archive (files w)) eqn:Hf;
    cbn -[mem String.append setArchiveProperties engine_invocations].
  2: { destruct (mem out_archive (blocked w));
         cbn -[mem String.append setArchiveProperties engine_invocations];
         rewrite ?Hsnoc; repeat split; auto. }
  destruct (mUpdateMode this); cbn -[mem String.append setArchiveProperties engine_invocations].
  2: { rewrite ?Hsnoc; repeat split; auto. }
  destruct (hasFeature (mFormat this) MULTIPLE_FILES);
    cbn -[mem String.append setArchiveProperties engine_invocations].
  2: { rewrite ?Hsnoc; repeat split; auto. }
  destruct (mem (out_archive ++ ".tmp") (files w));
    cbn -[mem String.append setArchiveProperties engine_invocations].
  { rewrite ?Hsnoc; repeat split; auto. }
  destruct (mem (out_archive ++ ".tmp") (blocked w));
    cbn -[mem String.append setArchiveProperties engine_invocations].
  { rewrite ?Hsnoc; repeat split; auto. }
  destruct (openInputArchive (mLibrary this) (value (mFormat this)) out_archive)
    as [e | old]; cbn -[mem String.append setArchiveProperties engine_invocations].
  { rewrite ?Hopen, ?Hsnoc; repeat split; auto. }
  destruct (initUpdatableArchive old) as [e | updatable];
    cbn -[mem String.append setArchiveProperties engine_invocations].
  { rewrite ?Hopen, ?Hsnoc; repeat split; auto. }
  match goal with
  | |- context [setArchiveProperties this updatable ?w0] =>
      pose proof (setArchiveProperties_world this updatable w0) as [Hfiles [Hblocked Hengine]];
      destruct (setArchiveProperties this updatable w0) as [[[] | e] w1]
  end; cbn -[mem String.append engine_invocations] in *;
    rewrite Hfiles, Hblocked, Hengine, ?Hopen, ?Hsnoc; repeat split; auto.
Qed.

Lemma initOutFileStream_never_compresses_witness :
  engine_invocations
    (trace (snd (initOutFileStream
                   (session sample_library zip_like [CallSetUpdateMode true])
                   "out.zip" sample_archive None stale_temp_world)))
  = 0%nat.
Proof.
  apply (initOutFileStream_never_compresses
           (session sample_library zip_like [CallSetUpdateMode true])
           "out.zip" sample_archive None stale_temp_world).
Defined.

Lemma mem_filter :
  forall (f : wstring -> bool) (path : wstring) (l : list wstring),
    mem path (filter f l) = f path && mem path l.
Proof.
  intros f path l; unfold mem; induction l as [| q l IH]; simpl.
  - symmetry; apply andb_false_r.
  - destruct (f q) eqn:Eq; simpl; rewrite IH.
    + destruct (String.eqb_spec path q) as [-> | _]; simpl.
      * rewrite Eq; reflexivity.
      * reflexivity.
    + destruct (String.eqb_spec path q) as [-> | _]; simpl.
      * rewrite Eq; reflexivity.
      * reflexivity.
Qed.

(** X30: an update that goes through leaves the directory as it found it:
    under the conditions of X28 and with a destination that can be
    replaced, [initOutFileStream] followed by [cleanupOldArc] on what it
    returned throws nothing, and afterwards exactly the files that existed
    before exist; in particular the destination is there and the temporary
    file is gone.  (The rename is the one of the model of
    [fsutil::renameFile].) *)
Theorem update_then_cleanup_restores_files :
  forall (this : BitArchiveCreator) (out_archive : wstring) (new_arc : IOutArchive)
         (w : World) (old : BitInputArchive) (updatable : IOutArchive),
    mVolumeSize this = 0 ->
    mem out_archive (files w) = true ->
    mem out_archive (blocked w) = false ->
    mUpdateMode this = true ->
    hasFeature (mFormat this) MULTIPLE_FILES = true ->
    mem (out_archive ++ ".tmp") (files w) = false ->
    mem (out_archive ++ ".tmp") (blocked w) = false ->
    openInputArchive (mLibrary this) (value (mFormat this)) out_archive = inr old ->
    initUpdatableArchive old = inr updatable ->
    QueryInterface_ISetProperties updatable = true ->
    SetProperties updatable (fst (archiveProperties this))
      (snd (archiveProperties this)) = S_OK ->
    exists (out_stream : OutStream) (old_arc : option BitInputArchive) (w1 w2 : World),
      initOutFileStream this out_archive new_arc None w
      = (Return (out_stream, updatable, old_arc), w1)
      /\ cleanupOldArc old_arc out_stream out_archive w1 = (Return tt, w2)
      /\ forall path : wstring, mem path (files w2) = mem path (files w).
Proof.
  intros this out_archive new_arc w old updatable
         Hvol Hf Hfb Hu Hm Ht Htb Hopen Hupd Hq Hs.
  destruct (initOutFileStream_update_run this out_archive new_arc None w old updatable
              Hvol Hf Hu Hm Ht Htb Hopen Hupd Hq Hs)
    as [w1 [Hinit [Hfiles [Hblocked _]]]].
  exists (COutFileStream (out_archive ++ ".tmp")), (Some old), w1.
  eexists; split; [exact Hinit |].
  run_stream. cbn -[mem String.append].
  rewrite Hfiles, Hblocked.
  assert (Htmp : mem (out_archive ++ ".tmp") ((out_archive ++ ".tmp") :: files w) = true).
  { unfold mem; simpl; rewrite String.eqb_refl; reflexivity. }
  rewrite Htmp, Hfb. cbn -[mem String.append].
  split; [reflexivity |].
  intros path.
  cbn [filter files]. rewrite String.eqb_refl. cbn [orb negb].
  change (mem path (out_archive :: ?l)) with (String.eqb path out_archive || mem path l).
  rewrite mem_filter.
  destruct (String.eqb_spec path out_archive) as [-> | Hne]; simpl.
  - symmetry; exact Hf.
  - destruct (String.eqb_spec path (out_archive ++ ".tmp")) as [-> | Hne']; simpl.
    + symmetry; exact Ht.
    + reflexivity.
Qed.

Lemma update_then_cleanup_restores_files_witness :
  exists (out_stream : OutStream) (old_arc : option BitInputArchive) (w1 w2 : World),
    initOutFileStream (session sample_library zip_like [CallSetUpdateMode true])
      "out.zip" failing_archive None sample_world
    = (Return (out_stream, sample_archive, old_arc), w1)
    /\ cleanupOldArc old_arc out_stream "out.zip" w1 = (Return tt, w2)
    /\ forall path : wstring, mem path (files w2) = mem path ["out.zip"].
Proof.
  apply (update_then_cleanup_restores_files
           (session sample_library zip_like [CallSetUpdateMode true])
           "out.zip" failing_archive sample_world
           {| archivePath := "out.zip"; initUpdatableArchive := inr sample_archive |}
           sample_archive);
    reflexivity.
Defined.
